(** * Amazon strategy assistant: the agent workflow and its presentation shell

    A shallow embedding of [utils/ai_agent.py] (class [AmazonStrategyAgent])
    and of the report handler of [app.py].

    Conventions.
    - A Python [str] is a Rocq [string] holding its UTF-8 encoding; the
      operations that count characters ([len], slicing, indexing) count code
      points, not bytes.
    - A value decoded from JSON is a [json]; the Python built-ins applied to
      such values are written out with the exception they raise.
    - Network calls, the clock and [print] are effects: a computation is a
      function of the world (the remote calls made so far and the lines
      printed) and returns an outcome (a value or a raised exception) and
      the new world. *)

From Stdlib Require Import String Ascii List ZArith QArith Lia Bool Arith.
From Stdlib Require Import Floats.SpecFloat Numbers.DecimalString.
Import ListNotations.
Open Scope string_scope.
Open Scope nat_scope.
Set Warnings "-register-all".

(* ===================================================================== *)
(** ** Python values and built-ins *)
(* ===================================================================== *)

Module Py.

(** A decoded JSON document: the values [json.loads] produces. A dict keeps
    its insertion order and has distinct keys. *)
Inductive json : Type :=
| JNull
| JBool (b : bool)
| JInt (z : Z)
| JFloat (f : spec_float)
| JStr (s : string)
| JArr (l : list json)
| JObj (d : list (string * json)).

Definition dict := list (string * json).

(** The exceptions that appear in the workflow. [ApiError] stands for
    whatever the OpenAI or SerpAPI client raises. *)
Inductive exn : Type :=
| KeyError (k : json)
| IndexError
| TypeError
| AttributeError
| JSONDecodeError
| ApiError (msg : string).

Inductive outcome (A : Type) : Type :=
| Ok (a : A)
| Raise (e : exn).
Arguments Ok {A} a.
Arguments Raise {A} e.

Definition rbind {A B} (r : outcome A) (k : A -> outcome B) : outcome B :=
  match r with
  | Ok a => k a
  | Raise e => Raise e
  end.

Notation "'let!' x ':=' r 'in' k" := (rbind r (fun x => k))
  (at level 10, x name, r at level 100, k at level 200).

Fixpoint rmap {A B} (f : A -> outcome B) (l : list A) : outcome (list B) :=
  match l with
  | [] => Ok []
  | x :: l' => rbind (f x) (fun y => rbind (rmap f l') (fun ys => Ok (y :: ys)))
  end.

(** *** Strings *)

Definition dq : string := String (ascii_of_nat 34) EmptyString.
Definition nl : string := String (ascii_of_nat 10) EmptyString.

(** A UTF-8 continuation byte, [10xxxxxx]. *)
Definition is_continuation (c : ascii) : bool :=
  match c with
  | Ascii _ _ _ _ _ _ b6 b7 => b7 && negb b6
  end.

(** [len(s)] *)
Fixpoint str_len (s : string) : nat :=
  match s with
  | EmptyString => 0
  | String c s' => if is_continuation c then str_len s' else S (str_len s')
  end.

(** [s[:n]] *)
Fixpoint str_take (n : nat) (s : string) : string :=
  match s with
  | EmptyString => EmptyString
  | String c s' =>
      if is_continuation c then String c (str_take n s')
      else match n with
           | 0 => EmptyString
           | S n' => String c (str_take n' s')
           end
  end.

Fixpoint drop_continuation (s : string) : string :=
  match s with
  | EmptyString => EmptyString
  | String c s' => if is_continuation c then drop_continuation s' else s
  end.

(** [s[n:]] *)
Fixpoint str_drop (n : nat) (s : string) : string :=
  match n with
  | 0 => s
  | S n' =>
      match s with
      | EmptyString => EmptyString
      | String _ s' => str_drop n' (drop_continuation s')
      end
  end.

(** The characters of [s], each as a one-character [str]. *)
Fixpoint str_chars (fuel : nat) (s : string) : list string :=
  match fuel with
  | 0 => []
  | S fuel' =>
      match s with
      | EmptyString => []
      | _ => str_take 1 s :: str_chars fuel' (str_drop 1 s)
      end
  end.

Definition chars (s : string) : list string := str_chars (String.length s) s.

Fixpoint starts_with (p s : string) : bool :=
  match p with
  | EmptyString => true
  | String a p' =>
      match s with
      | EmptyString => false
      | String b s' => Ascii.eqb a b && starts_with p' s'
      end
  end.

(** [needle in hay] for two strings. *)
Fixpoint contains (needle hay : string) : bool :=
  starts_with needle hay ||
  match hay with
  | EmptyString => false
  | String _ hay' => contains needle hay'
  end.

(** [sep.join(parts)] for a list of strings. *)
Fixpoint join (sep : string) (parts : list string) : string :=
  match parts with
  | [] => EmptyString
  | [x] => x
  | x :: rest => x ++ sep ++ join sep rest
  end.

Definition upper_ascii (c : ascii) : ascii :=
  let n := nat_of_ascii c in
  if (97 <=? n) && (n <=? 122) then ascii_of_nat (n - 32) else c.

(** [s.upper()]. Letters outside ASCII are left as they are; the strings this
    is applied to, the section names of the template table, are ASCII. *)
Fixpoint upper (s : string) : string :=
  match s with
  | EmptyString => EmptyString
  | String c s' => String (upper_ascii c) (upper s')
  end.

(** [s.replace(old, new)] for a non-empty [old]: occurrences are replaced
    from the left and do not overlap. [skip] counts the bytes of the
    occurrence being replaced that are still to be passed over. *)
Fixpoint replace_from (old new : string) (skip : nat) (s : string) : string :=
  match s with
  | EmptyString => EmptyString
  | String c s' =>
      match skip with
      | S k => replace_from old new k s'
      | 0 =>
          if starts_with old s
          then new ++ replace_from old new (String.length old - 1) s'
          else String c (replace_from old new 0 s')
      end
  end.

(** [s.replace("", new)] puts [new] around every character. *)
Fixpoint replace_empty (new : string) (s : string) : string :=
  match s with
  | EmptyString => EmptyString
  | String c s' =>
      String c
        match s' with
        | EmptyString => new
        | String d _ =>
            if is_continuation d then replace_empty new s'
            else new ++ replace_empty new s'
        end
  end.

Definition replace (old new s : string) : string :=
  match old with
  | EmptyString => new ++ replace_empty new s
  | _ => replace_from old new 0 s
  end.

(** [str(n)] for a non-negative integer. *)
Definition str_of_nat (n : nat) : string :=
  NilEmpty.string_of_uint (Nat.to_uint n).

(** *** Dictionaries *)

Fixpoint lookup {V} (k : string) (d : list (string * V)) : option V :=
  match d with
  | [] => None
  | (k', v) :: d' => if String.eqb k k' then Some v else lookup k d'
  end.

(** [d[k] = v]: an existing key keeps its place, a new one goes last. *)
Fixpoint store {V} (k : string) (v : V) (d : list (string * V)) : list (string * V) :=
  match d with
  | [] => [(k, v)]
  | (k', v') :: d' =>
      if String.eqb k k' then (k, v) :: d' else (k', v') :: store k v d'
  end.

(** [d.get(key, default)] on a dict with [str] keys, for any key object:
    a list or a dict is unhashable, every other non-[str] key is absent. *)
Definition dict_get {V} (d : list (string * V)) (key : json) (default : V) : outcome V :=
  match key with
  | JStr k => Ok (match lookup k d with Some v => v | None => default end)
  | JArr _ | JObj _ => Raise TypeError
  | _ => Ok default
  end.

(** [d[key]] on a dict with [str] keys, for any key object. *)
Definition dict_item {V} (d : list (string * V)) (key : json) : outcome V :=
  match key with
  | JStr k => match lookup k d with Some v => Ok v | None => Raise (KeyError key) end
  | JArr _ | JObj _ => Raise TypeError
  | _ => Raise (KeyError key)
  end.

(** *** Built-ins on decoded values *)

(** Truth value, as [if v:] tests it. *)
Definition truthy (v : json) : bool :=
  match v with
  | JNull => false
  | JBool b => b
  | JInt z => negb (Z.eqb z 0)
  | JFloat (S754_zero _) => false
  | JFloat _ => true
  | JStr s => negb (String.eqb s EmptyString)
  | JArr l => match l with [] => false | _ => true end
  | JObj d => match d with [] => false | _ => true end
  end.

(** [v.get(k, default)]: only a dict has the method. *)
Definition get (v : json) (k : string) (default : json) : outcome json :=
  match v with
  | JObj d => Ok (match lookup k d with Some x => x | None => default end)
  | _ => Raise AttributeError
  end.

(** [v[k]] with a [str] key. *)
Definition item (v : json) (k : string) : outcome json :=
  match v with
  | JObj d => match lookup k d with Some x => Ok x | None => Raise (KeyError (JStr k)) end
  | _ => Raise TypeError
  end.

(** [v[k] = x] with a [str] key. *)
Definition setitem (v : json) (k : string) (x : json) : outcome json :=
  match v with
  | JObj d => Ok (JObj (store k x d))
  | _ => Raise TypeError
  end.

(** [v[i]] with a non-negative integer index. *)
Definition index (v : json) (i : nat) : outcome json :=
  match v with
  | JArr l => match nth_error l i with Some x => Ok x | None => Raise IndexError end
  | JStr s => match nth_error (chars s) i with Some c => Ok (JStr c) | None => Raise IndexError end
  | JObj _ => Raise (KeyError (JInt (Z.of_nat i)))
  | _ => Raise TypeError
  end.

(** [len(v)] *)
Definition len (v : json) : outcome nat :=
  match v with
  | JArr l => Ok (List.length l)
  | JStr s => Ok (str_len s)
  | JObj d => Ok (List.length d)
  | _ => Raise TypeError
  end.

(** [v[:n]]; slicing a dict raises ([TypeError] up to Python 3.11). *)
Definition slice_to (n : nat) (v : json) : outcome json :=
  match v with
  | JArr l => Ok (JArr (firstn n l))
  | JStr s => Ok (JStr (str_take n s))
  | _ => Raise TypeError
  end.

(** The items a [for] loop over [v] visits. *)
Definition iterate (v : json) : outcome (list json) :=
  match v with
  | JArr l => Ok l
  | JStr s => Ok (map JStr (chars s))
  | JObj d => Ok (map (fun kv => JStr (fst kv)) d)
  | _ => Raise TypeError
  end.

Definition as_str (v : json) : outcome string :=
  match v with
  | JStr s => Ok s
  | _ => Raise TypeError
  end.

(** [sep.join(v)]: every item must be a [str]. *)
Definition join_value (sep : string) (v : json) : outcome string :=
  rbind (iterate v) (fun items =>
  rbind (rmap as_str items) (fun parts => Ok (join sep parts))).

(** [v == s] for a [str] [s], and [v in l] for a list of [str]. *)
Definition eq_str (v : json) (s : string) : bool :=
  match v with
  | JStr s' => String.eqb s' s
  | _ => false
  end.

Definition in_strs (v : json) (l : list string) : bool :=
  existsb (eq_str v) l.

End Py.
Import Py.

(* ===================================================================== *)
(** ** Effects: the two remote services, the clock and standard output *)
(* ===================================================================== *)

(** The arguments of [chat.completions.create]: the model, the content of the
    single user message, the sampling temperature and the optional cap on
    the output length. *)
Record chat_request : Type := {
  model : string;
  content : string;
  temperature : Q;
  max_tokens : option nat
}.

(** The [params] dictionary handed to [GoogleSearch]. *)
Record search_params : Type := {
  q : string;
  api_key : string;
  num : nat;
  hl : string;
  gl : string
}.

Inductive call : Type :=
| ChatCall (r : chat_request)
| SearchCall (p : search_params).

(** The remote calls made so far, the latest first. *)
Definition trace := list call.

Record world : Type := {
  calls : trace;
  stdout : list string
}.

(** What lies outside the repository. Every answer may depend on the calls
    made before, so two calls with equal arguments may differ.
    - [json_loads]: [json.loads], [None] when it raises;
    - [repr]: how a decoded value that is not a [str] is formatted in an
      f-string;
    - [exc_str]: [str(e)] of an exception;
    - [strftime_now]: [datetime.datetime.now().strftime("%B %d, %Y")];
    - [create]: [chat.completions.create]; a response is represented by the
      text of its [choices[0].message.content], which a completed call is
      taken to carry;
    - [get_dict]: [GoogleSearch(params).get_dict()]. *)
Record runtime : Type := {
  json_loads : string -> option json;
  repr : json -> string;
  exc_str : exn -> string;
  strftime_now : trace -> string;
  create : trace -> chat_request -> outcome string;
  get_dict : trace -> search_params -> outcome dict
}.

Definition M (A : Type) : Type := world -> outcome A * world.

Definition ret {A} (a : A) : M A := fun w => (Ok a, w).

Definition bind {A B} (m : M A) (k : A -> M B) : M B :=
  fun w =>
    match m w with
    | (Ok a, w') => k a w'
    | (Raise e, w') => (Raise e, w')
    end.

(** A pure step that may raise. *)
Definition lift {A} (r : outcome A) : M A := fun w => (r, w).

(** [try: body  except: handler] with a handler that catches everything. *)
Definition try_except {A} (body : M A) (handler : exn -> M A) : M A :=
  fun w =>
    match body w with
    | (Ok a, w') => (Ok a, w')
    | (Raise e, w') => handler e w'
    end.

Declare Scope monad_scope.
Delimit Scope monad_scope with monad.
Notation "x <- m ;; k" := (bind m (fun x => k))
  (at level 61, m at next level, right associativity) : monad_scope.
Notation "m ;;; k" := (bind m (fun _ => k))
  (at level 61, right associativity) : monad_scope.
Open Scope monad_scope.

(** The search calls and the LLM calls of a trace. *)
Definition search_calls (t : trace) : list search_params :=
  flat_map (fun c => match c with SearchCall p => [p] | _ => [] end) t.

Definition chat_calls (t : trace) : list chat_request :=
  flat_map (fun c => match c with ChatCall r => [r] | _ => [] end) t.

(* ===================================================================== *)
(** ** utils/ai_agent.py *)
(* ===================================================================== *)

Record template : Type := {
  title : string;
  sections : list string
}.

Record AmazonStrategyAgent : Type := {
  openai_api_key : string;
  serpapi_key : string
}.

(** [self.report_templates] *)
Definition report_templates : list (string * template) :=
  [ ("competition",
     {| title := "🏆 Competitive Analysis Report";
        sections := ["Market Position"; "Competitor Strengths/Weaknesses"; "Competitive Gaps"; "Strategic Recommendations"] |});
    ("advertising",
     {| title := "📢 Amazon Advertising Strategy Report";
        sections := ["Current Ad Landscape"; "Opportunity Analysis"; "Budget Allocation"; "Campaign Recommendations"] |});
    ("trends",
     {| title := "📈 Market Trends Analysis";
        sections := ["Emerging Trends"; "Consumer Behavior"; "Market Opportunities"; "Strategic Positioning"] |});
    ("pricing",
     {| title := "💰 Pricing Strategy Report";
        sections := ["Price Analysis"; "Competitive Pricing"; "Value Positioning"; "Pricing Recommendations"] |});
    ("reviews",
     {| title := "⭐ Customer Sentiment Analysis";
        sections := ["Review Analysis"; "Customer Pain Points"; "Satisfaction Drivers"; "Improvement Areas"] |});
    ("general",
     {| title := "📊 Amazon Strategy Analysis";
        sections := ["Market Overview"; "Key Insights"; "Strategic Opportunities"; "Action Plan"] |}) ].

Definition valid_categories : list string :=
  ["competition"; "advertising"; "trends"; "pricing"; "reviews"; "general"].

(** The value the driver returns. *)
Record ResearchResult : Type := {
  question : string;
  analysis : json;
  search_results : list json;
  report : string;
  sources : list json;
  report_type : json;
  template_used : string
}.

(** [template['sections'][i]] *)
Definition section (t : template) (i : nat) : outcome string :=
  match nth_error (sections t) i with
  | Some s => Ok s
  | None => Raise IndexError
  end.

(** [search_queries] of [search_amazon_data], for the formatted query. *)
Definition search_queries (query : string) : list (string * string) :=
  [ ("general", "Amazon " ++ query ++ " 2024");
    ("competition", "Amazon top sellers " ++ query ++ " competitors");
    ("trends", "Amazon marketplace trends " ++ query ++ " 2024");
    ("advertising", "Amazon PPC advertising strategy " ++ query);
    ("reviews", "Amazon customer reviews " ++ query ++ " analysis");
    ("pricing", "Amazon pricing strategy " ++ query ++ " market") ].

(** The fallback classification of [analyze_strategy_question]. *)
Definition fallback (question : string) : json :=
  JObj [ ("category", JStr "general");
         ("search_terms", JArr [JStr question]);
         ("focus_areas", JArr [JStr "market analysis"; JStr "opportunities"; JStr "strategy"]);
         ("analysis_type", JStr "General Amazon strategy analysis");
         ("key_questions", JArr [JStr question]) ].

(** [search_counts.get(research_depth, 3)] *)
Definition search_counts : list (string * nat) :=
  [ ("Quick Analysis", 2); ("Deep Dive", 3); ("Comprehensive Report", 4) ].

Definition num_searches (research_depth : string) : nat :=
  match lookup research_depth search_counts with
  | Some n => n
  | None => 3
  end.

(** The prompt of [analyze_strategy_question]. *)
Definition classify_prompt (question : string) : string :=
  "
        Analyze this Amazon strategy question and choose the SINGLE best category.
        
        Question: " ++ question ++ "
        
        Choose ONE category:
        - competition (for competitor analysis, market leaders)
        - advertising (for Amazon ads, PPC strategies)  
        - trends (for market trends, consumer behavior)
        - pricing (for pricing strategies, price analysis)
        - reviews (for customer feedback, reviews)
        - general (for broad strategy questions)
        
        Return only valid JSON with ONE category chosen:
        {
            " ++ dq ++ "category" ++ dq ++ ": " ++ dq ++ "competition" ++ dq ++ ",
            " ++ dq ++ "search_terms" ++ dq ++ ": [" ++ dq ++ "supplement brands" ++ dq ++ ", " ++ dq ++ "Amazon competitors" ++ dq ++ ", " ++ dq ++ "market leaders" ++ dq ++ "],
            " ++ dq ++ "focus_areas" ++ dq ++ ": [" ++ dq ++ "competitive analysis" ++ dq ++ ", " ++ dq ++ "market positioning" ++ dq ++ ", " ++ dq ++ "differentiation" ++ dq ++ "],
            " ++ dq ++ "analysis_type" ++ dq ++ ": " ++ dq ++ "competitive landscape analysis" ++ dq ++ ",
            " ++ dq ++ "key_questions" ++ dq ++ ": [" ++ dq ++ "Who are the top competitors?" ++ dq ++ ", " ++ dq ++ "What are their strengths?" ++ dq ++ ", " ++ dq ++ "Where are the gaps?" ++ dq ++ "]
        }
        ".

(** The prompt of [generate_enhanced_report], from the values its f-string
    interpolates. *)
Definition report_prompt
    (title current_date question analysis_type focus_areas search_summary
     section0 section1 section2 section3 : string) : string :=
  "
        You are a senior Amazon strategy consultant. Create a comprehensive, professional strategy report.
        
        REPORT TYPE: " ++ title ++ "
        DATE: " ++ current_date ++ "
        CLIENT QUESTION: " ++ question ++ "
        
        ANALYSIS FRAMEWORK: " ++ analysis_type ++ "
        KEY FOCUS AREAS: " ++ focus_areas ++ "
        
        MARKET RESEARCH DATA:
        " ++ search_summary ++ "
        
        Create a detailed report with these sections:
        
        # " ++ title ++ "
        *Generated on " ++ current_date ++ "*
        
        ## 🎯 EXECUTIVE SUMMARY
        • [Key insight 1 - most important finding]
        • [Key insight 2 - critical opportunity or challenge]  
        • [Key insight 3 - strategic implication]
        
        ## 🔍 " ++ section0 ++ "
        [Detailed analysis of first focus area with specific data points]
        
        ## 📊 " ++ section1 ++ "
        [Second major section with actionable insights]
        
        ## 💡 " ++ section2 ++ "
        [Third section focusing on opportunities and strategies]
        
        ## 🚀 " ++ section3 ++ "
        1. **Immediate Actions (Next 30 days)**
           - [Specific action item]
           - [Specific action item]
        
        2. **Strategic Initiatives (Next 90 days)**
           - [Strategic initiative]
           - [Strategic initiative]
        
        3. **Long-term Strategy (6+ months)**
           - [Long-term strategic direction]
           - [Long-term strategic direction]
        
        ## 📈 KEY METRICS TO TRACK
        • [Specific metric 1]
        • [Specific metric 2]
        • [Specific metric 3]
        
        ## ⚠️ POTENTIAL RISKS & MITIGATION
        • **Risk:** [Potential challenge] | **Mitigation:** [How to address]
        • **Risk:** [Potential challenge] | **Mitigation:** [How to address]
        
        Use specific data from the research. Be actionable and strategic. Focus on Amazon marketplace dynamics.
        ".

Section Agent.

Variable R : runtime.
Variable self : AmazonStrategyAgent.

Definition call_create (r : chat_request) : M string :=
  fun w => (create R (calls w) r, {| calls := ChatCall r :: calls w; stdout := stdout w |}).

Definition call_get_dict (p : search_params) : M dict :=
  fun w => (get_dict R (calls w) p, {| calls := SearchCall p :: calls w; stdout := stdout w |}).

Definition print (line : string) : M unit :=
  fun w => (Ok tt, {| calls := calls w; stdout := line :: stdout w |}).

Definition now : M string :=
  fun w => (Ok (strftime_now R (calls w)), w).

(** A value interpolated in an f-string. *)
Definition format (v : json) : string :=
  match v with
  | JStr s => s
  | _ => repr R v
  end.

(** The record [search_amazon_data] builds from one organic result. *)
Definition normalize (r : json) : outcome json :=
  let! title := get r "title" (JStr "") in
  let! snippet := get r "snippet" (JStr "") in
  let! link := get r "link" (JStr "") in
  let! source := get r "source" (JStr "") in
  let! displayed := get r "displayed_link" source in
  Ok (JObj [ ("title", title); ("snippet", snippet); ("link", link); ("source", displayed) ]).

(** [params] of [search_amazon_data]. *)
Definition search_request (query : json) (search_type : json) : outcome search_params :=
  let query_s := format query in
  let! search_query := dict_get (search_queries query_s) search_type ("Amazon " ++ query_s) in
  Ok {| q := search_query; api_key := serpapi_key self; num := 8; hl := "en"; gl := "us" |}.

Definition search_amazon_data (query : json) (search_type : json) : M (list json) :=
  params <- lift (search_request query search_type) ;;
  try_except
    (results <- call_get_dict params ;;
     match lookup "organic_results" results with
     | Some organic =>
         top <- lift (slice_to 6 organic) ;;
         items <- lift (iterate top) ;;
         lift (rmap normalize items)
     | None => ret []
     end)
    (fun e => print ("Search error: " ++ exc_str R e) ;;; ret []).

(** The request of [analyze_strategy_question]. *)
Definition classify_request (question : string) : chat_request :=
  let prompt := classify_prompt question in
  {| model := "gpt-4"; content := prompt; temperature := 1 # 10; max_tokens := None |}.

Definition analyze_strategy_question (question : string) : M json :=
  response <- call_create (classify_request question) ;;
  try_except
    (analysis <- lift (match json_loads R response with
                       | Some v => Ok v
                       | None => Raise JSONDecodeError
                       end) ;;
     category <- lift (get analysis "category" JNull) ;;
     if negb (in_strs category valid_categories)
     then lift (setitem analysis "category" (JStr "general"))
     else ret analysis)
    (fun _ => ret (fallback question)).

(** The loop that builds [search_summary]; [i] is the number [enumerate]
    gives the next item. *)
Fixpoint search_summary_loop (search_summary : string) (i : nat) (results : list json)
  : outcome string :=
  match results with
  | [] => Ok search_summary
  | r :: rest =>
      let! test := item r "snippet" in
      if truthy test then
        let! title := item r "title" in
        let! snippet := item r "snippet" in
        let! source := item r "source" in
        search_summary_loop
          (search_summary ++ nl ++ "**Source " ++ str_of_nat i ++ ":** " ++ format title ++ nl
             ++ format snippet ++ nl ++ "*From: " ++ format source ++ "*" ++ nl)
          (S i) rest
      else search_summary_loop search_summary (S i) rest
  end.

(** The f-string of [generate_enhanced_report], its interpolations
    evaluated from left to right. *)
Definition enhanced_report_prompt (template : template) (current_date question : string)
    (analysis : json) (search_summary : string) : outcome string :=
  let! analysis_type := get analysis "analysis_type" (JStr "Strategic analysis") in
  let! focus_areas := get analysis "focus_areas" (JArr []) in
  let! joined := join_value ", " focus_areas in
  let! section0 := section template 0 in
  let! section1 := section template 1 in
  let! section2 := section template 2 in
  let! section3 := section template 3 in
  Ok (report_prompt (title template) current_date question (format analysis_type) joined
        search_summary (upper section0) (upper section1) (upper section2) (upper section3)).

Definition generate_enhanced_report (question : string) (search_results : list json)
    (analysis : json) (template_type : json) : M string :=
  template <- lift (let! general := dict_item report_templates (JStr "general") in
                    dict_get report_templates template_type general) ;;
  search_summary <- lift (search_summary_loop "" 1 (firstn 4 search_results)) ;;
  current_date <- now ;;
  prompt <- lift (enhanced_report_prompt template current_date question analysis
                    search_summary) ;;
  response <- call_create
    {| model := "gpt-4"; content := prompt; temperature := 3 # 10; max_tokens := Some 2000 |} ;;
  ret response.

(** [[result['link'] for result in all_search_results if result['link']]] *)
Fixpoint links (all_search_results : list json) : outcome (list json) :=
  match all_search_results with
  | [] => Ok []
  | r :: rest =>
      let! test := item r "link" in
      if truthy test then
        let! link := item r "link" in
        let! more := links rest in
        Ok (link :: more)
      else links rest
  end.

Definition research_and_analyze (question : string) (research_depth : string)
  : M ResearchResult :=
  (* Step 1 *)
  analysis <- analyze_strategy_question question ;;
  let num_searches := num_searches research_depth in
  (* Step 2 *)
  let all_search_results := @nil json in
  test <- lift (item analysis "search_terms") ;;
  term <- (if truthy test
           then lift (let! terms := item analysis "search_terms" in index terms 0)
           else ret (JStr question)) ;;
  category <- lift (item analysis "category") ;;
  primary_results <- search_amazon_data term category ;;
  let all_search_results := (all_search_results ++ firstn 3 primary_results)%list in
  second <- (if 3 <=? num_searches
             then lift (let! terms := item analysis "search_terms" in
                        let! n := len terms in Ok (1 <? n))
             else ret false) ;;
  all_search_results <-
    (if second : bool
     then term <- lift (let! terms := item analysis "search_terms" in index terms 1) ;;
          secondary_results <- search_amazon_data term (JStr "general") ;;
          ret (all_search_results ++ firstn 2 secondary_results)%list
     else ret all_search_results) ;;
  third <- (if 4 <=? num_searches
            then lift (let! terms := item analysis "search_terms" in
                       let! n := len terms in Ok (2 <? n))
            else ret false) ;;
  all_search_results <-
    (if third : bool
     then term <- lift (let! terms := item analysis "search_terms" in index terms 2) ;;
          category <- lift (item analysis "category") ;;
          tertiary_results <- search_amazon_data term category ;;
          ret (all_search_results ++ firstn 2 tertiary_results)%list
     else ret all_search_results) ;;
  (* Step 3 *)
  category <- lift (item analysis "category") ;;
  report <- generate_enhanced_report question all_search_results analysis category ;;
  sources <- lift (links all_search_results) ;;
  report_type <- lift (item analysis "category") ;;
  key <- lift (item analysis "category") ;;
  used <- lift (dict_item report_templates key) ;;
  ret {| question := question;
         analysis := analysis;
         search_results := all_search_results;
         report := report;
         sources := sources;
         report_type := report_type;
         template_used := title used |}.

End Agent.

(* ===================================================================== *)
(** ** app.py: the handler of the "Generate Strategy Report" button *)
(* ===================================================================== *)

(** What the handler puts on the page, in order. Layout containers
    ([st.container], [st.columns]) carry no content and are left out. *)
Inductive ui : Type :=
| StError (body : string)
| StMarkdown (body : string) (unsafe_allow_html : bool)
| StInfo (body : string)
| StProgress (value : nat)
| StPlaceholder
| StatusMarkdown (body : string)
| ProgressEmpty
| StatusEmpty
| Sleep (seconds : nat)
| StDownloadButton (label data file_name mime : string)
| StCode (body language : string)
| StCaption (body : string).

Fixpoint enumerate {A} (start : nat) (l : list A) : list (nat * A) :=
  match l with
  | [] => []
  | x :: l' => (start, x) :: enumerate (S start) l'
  end.

(** [file_name] of the download button. *)
Definition report_file_name (question : string) : string :=
  "amazon_strategy_report_" ++ replace " " "_" (str_take 30 question) ++ ".md".

Section App.

Variable R : runtime.
Variable agent : AmazonStrategyAgent.
Variable agent_ready : bool.

(** The widgets drawn before the driver is called. *)
Definition progress_widgets : list ui :=
  [ StProgress 0;
    StPlaceholder;
    StatusMarkdown "🔍 **Analyzing your strategy question...**";
    StProgress 15;
    StatusMarkdown "🌐 **Searching Amazon market data...**";
    StProgress 35;
    StatusMarkdown "🧠 **Processing insights with AI...**";
    StProgress 65 ].

Definition source_lines (sources : list json) : list ui :=
  map (fun '(i, source) =>
         StMarkdown ("**" ++ str_of_nat i ++ ".** [View Source](" ++ format R source ++ ")") false)
      (enumerate 1 (firstn 5 sources)).

Definition report_with_sources (results : ResearchResult) : string :=
  match sources results with
  | [] => report results
  | _ =>
      fold_left
        (fun acc '(i, source) => acc ++ str_of_nat i ++ ". " ++ format R source ++ nl)
        (enumerate 1 (firstn 5 (sources results)))
        (report results ++ nl ++ nl ++ "## Research Sources" ++ nl)
  end.

(** The widgets drawn once the driver has returned [results]. *)
Definition result_widgets (question research_depth : string) (results : ResearchResult)
  : list ui :=
  ([ StProgress 85;
    StatusMarkdown "📊 **Finalizing your report...**";
    StProgress 100;
    StatusMarkdown "✅ **Report complete!**";
    StMarkdown ("
                <div class=" ++ dq ++ "success-banner" ++ dq ++ ">
                    <strong>🎉 Analysis Complete!</strong> Your Amazon strategy report is ready below.
                </div>
                ") true;
    Sleep 1;
    ProgressEmpty;
    StatusEmpty;
    StMarkdown ("<div class=" ++ dq ++ "report-container" ++ dq ++ ">") true;
    StInfo ("📋 **Report Type:** " ++ template_used results);
    StInfo ("🔍 **Sources Found:** " ++ str_of_nat (List.length (sources results)));
    StInfo ("⚙️ **Analysis Depth:** " ++ research_depth);
    StMarkdown "## 📊 Your Amazon Strategy Report" false;
    StMarkdown (report results) false;
    StMarkdown "</div>" true ]
  ++ match sources results with
     | [] => []
     | _ => StMarkdown "## 📚 Research Sources" false :: source_lines (sources results)
     end
  ++ [ StMarkdown "## 📥 Export Options" false;
       StDownloadButton "📄 Download Report (Markdown)" (report_with_sources results)
         (report_file_name question) "text/markdown";
       StCode (str_take 200 (report_with_sources results) ++ "...")%string "markdown";
       StCaption "💡 Copy the full report above to paste into your documents" ])%list.

(** The [except Exception as e] branch. *)
Definition error_widgets (e : exn) : list ui :=
  [ StError ("❌ **Error generating report:** " ++ exc_str R e);
    StMarkdown ("
                **Troubleshooting tips:**
                - Check your internet connection
                - Verify API keys are configured correctly  
                - Try a simpler question to test the system
                - Contact support if the issue persists
                ") false ].

(** One click on the button, with the text of the question box and the
    selected depth. *)
Definition generate_strategy_report (question research_depth : string)
  : world -> list ui * world :=
  fun w =>
    if String.eqb question ""
    then ([StError "⚠️ Please enter a strategy question to get started!"], w)
    else if negb agent_ready
    then ([StError "🔧 System not ready. Please check your configuration."], w)
    else
      match research_and_analyze R agent question research_depth w with
      | (Ok results, w') =>
          ((progress_widgets ++ result_widgets question research_depth results)%list, w')
      | (Raise e, w') => ((progress_widgets ++ error_widgets e)%list, w')
      end.

End App.

(* ===================================================================== *)
(** ** app.py: start-up and the example questions of the sidebar *)
(* ===================================================================== *)

(** What start-up reads from its host:
    - [getenv]: [os.getenv] once [load_dotenv] has run, [None] for a
      variable that is not set;
    - [secrets_get]: [st.secrets.get], which gives [None] (here [JNull]) for
      a secret that is absent and raises when the secrets cannot be read;
    - [new_client]: the constructor [OpenAI(api_key=...)]. *)
Record host : Type := {
  getenv : string -> option string;
  secrets_get : string -> outcome json;
  new_client : json -> outcome unit
}.

Definition env_value (v : option string) : json :=
  match v with
  | Some s => JStr s
  | None => JNull
  end.

(** [a or b]: [b] is evaluated only when [a] is falsy. *)
Definition or_else (a : json) (b : outcome json) : outcome json :=
  if truthy a then Ok a else b.

(** The keys an agent is built with, as start-up passes them. *)
Record agent_keys : Type := {
  key_openai : json;
  key_serpapi : json
}.

(** [AmazonStrategyAgent.__init__] *)
Definition new_agent (H : host) (openai_api_key serpapi_key : json) : outcome agent_keys :=
  let! openai_client := new_client H openai_api_key in
  Ok {| key_openai := openai_api_key; key_serpapi := serpapi_key |}.

Record startup : Type := {
  started_agent : option agent_keys;
  started_ready : bool;
  started_widgets : list ui
}.

(** The [try] block that builds [agent] and sets [agent_ready]. *)
Definition initialize (R : runtime) (H : host) : startup :=
  match (let! openai_key := or_else (env_value (getenv H "OPENAI_API_KEY"))
                                    (secrets_get H "OPENAI_API_KEY") in
         let! serpapi_key := or_else (env_value (getenv H "SERPAPI_API_KEY"))
                                     (secrets_get H "SERPAPI_API_KEY") in
         new_agent H openai_key serpapi_key) with
  | Ok agent =>
      {| started_agent := Some agent; started_ready := true; started_widgets := [] |}
  | Raise e =>
      {| started_agent := None; started_ready := false;
         started_widgets := [StError ("⚠️ Configuration Error: " ++ exc_str R e)] |}
  end.

Definition example_questions : list string :=
  [ "What are emerging Amazon advertising trends for supplement brands?";
    "How should skincare brands compete against top sellers on Amazon?";
    "What's the pricing opportunity for eco-friendly products on Amazon?";
    "What are customers saying about protein powders on Amazon?";
    "How can I optimize my Amazon product listings for better conversion?" ].

(** The key of the button of example [i]. *)
Definition example_key (i : nat) : string := "example_" ++ str_of_nat i.

(** The loop over the example buttons, on the entry [example_question] of
    the session state; [clicked] tells which buttons report a click. *)
Definition example_buttons (clicked : string -> bool) (session : option string)
  : option string :=
  fold_left
    (fun session '(i, question) => if clicked (example_key i) then Some question else session)
    (enumerate 0 example_questions) session.

(** [default_question] and the session state left behind. *)
Definition default_question (session : option string) : string * option string :=
  match session with
  | Some question => (question, None)
  | None => (EmptyString, None)
  end.

(* ===================================================================== *)
(** ** A runtime to run the model on concrete responses *)
(* ===================================================================== *)

Module Example.

(** A decoder for the JSON documents made of objects, arrays, strings
    without [\u] escapes, integers, [true], [false] and [null]. Any other
    text is refused; the runs below decode no number with a fraction or an
    exponent. *)

Definition is_space (c : ascii) : bool :=
  let n := nat_of_ascii c in
  (n =? 32) || (n =? 9) || (n =? 10) || (n =? 13).

Definition is_digit (c : ascii) : bool :=
  let n := nat_of_ascii c in
  (48 <=? n) && (n <=? 57).

Fixpoint skip_space (s : string) : string :=
  match s with
  | EmptyString => EmptyString
  | String c s' => if is_space c then skip_space s' else s
  end.

Definition unescape (c : ascii) : option ascii :=
  let n := nat_of_ascii c in
  if n =? 34 then Some c
  else if n =? 92 then Some c
  else if n =? 47 then Some c
  else if n =? 98 then Some (ascii_of_nat 8)
  else if n =? 102 then Some (ascii_of_nat 12)
  else if n =? 110 then Some (ascii_of_nat 10)
  else if n =? 114 then Some (ascii_of_nat 13)
  else if n =? 116 then Some (ascii_of_nat 9)
  else None.

(** The text of a string up to its closing quote, and what follows it. *)
Fixpoint scan_string (s : string) : option (string * string) :=
  match s with
  | EmptyString => None
  | String c s' =>
      let n := nat_of_ascii c in
      if n =? 34 then Some (EmptyString, s')
      else if n <? 32 then None
      else if n =? 92 then
        match s' with
        | EmptyString => None
        | String e s'' =>
            match unescape e, scan_string s'' with
            | Some c', Some (body, rest) => Some (String c' body, rest)
            | _, _ => None
            end
        end
      else
        match scan_string s' with
        | Some (body, rest) => Some (String c body, rest)
        | None => None
        end
  end.

Fixpoint scan_digits (acc : Z) (s : string) : Z * string :=
  match s with
  | EmptyString => (acc, s)
  | String c s' =>
      if is_digit c
      then scan_digits (10 * acc + Z.of_nat (nat_of_ascii c - 48))%Z s'
      else (acc, s)
  end.

(** An integer without a leading zero, followed by neither a fraction nor
    an exponent. *)
Definition scan_int (s : string) : option (Z * string) :=
  match s with
  | EmptyString => None
  | String c s' =>
      if is_digit c then
        let '(z, rest) := scan_digits 0 s in
        let leading_zero := (nat_of_ascii c =? 48) && negb (String.length rest + 1 =? String.length s) in
        match rest with
        | String d _ =>
            let m := nat_of_ascii d in
            if (m =? 46) || (m =? 101) || (m =? 69) || leading_zero then None else Some (z, rest)
        | EmptyString => if leading_zero then None else Some (z, rest)
        end
      else None
  end.

Fixpoint decode (fuel : nat) (s : string) : option (json * string) :=
  match fuel with
  | 0 => None
  | S fuel' =>
      match skip_space s with
      | String "n" (String "u" (String "l" (String "l" rest))) => Some (JNull, rest)
      | String "t" (String "r" (String "u" (String "e" rest))) => Some (JBool true, rest)
      | String "f" (String "a" (String "l" (String "s" (String "e" rest)))) =>
          Some (JBool false, rest)
      | String "[" rest =>
          match skip_space rest with
          | String "]" rest' => Some (JArr [], rest')
          | _ =>
              match decode_items fuel' rest with
              | Some (l, rest') => Some (JArr l, rest')
              | None => None
              end
          end
      | String "{" rest =>
          match skip_space rest with
          | String "}" rest' => Some (JObj [], rest')
          | _ =>
              match decode_members fuel' [] rest with
              | Some (d, rest') => Some (JObj d, rest')
              | None => None
              end
          end
      | String "-" rest =>
          match scan_int rest with
          | Some (z, rest') => Some (JInt (- z), rest')
          | None => None
          end
      | String c rest =>
          if nat_of_ascii c =? 34 then
            match scan_string rest with
            | Some (body, rest') => Some (JStr body, rest')
            | None => None
            end
          else
            match scan_int (String c rest) with
            | Some (z, rest') => Some (JInt z, rest')
            | None => None
            end
      | EmptyString => None
      end
  end
with decode_items (fuel : nat) (s : string) : option (list json * string) :=
  match fuel with
  | 0 => None
  | S fuel' =>
      match decode fuel' s with
      | Some (v, rest) =>
          match skip_space rest with
          | String "]" rest' => Some ([v], rest')
          | String "," rest' =>
              match decode_items fuel' rest' with
              | Some (l, rest'') => Some (v :: l, rest'')
              | None => None
              end
          | _ => None
          end
      | None => None
      end
  end
with decode_members (fuel : nat) (d : dict) (s : string) : option (dict * string) :=
  match fuel with
  | 0 => None
  | S fuel' =>
      match skip_space s with
      | String c rest =>
          if nat_of_ascii c =? 34 then
            match scan_string rest with
            | Some (k, rest') =>
                match skip_space rest' with
                | String ":" rest'' =>
                    match decode fuel' rest'' with
                    | Some (v, rest3) =>
                        match skip_space rest3 with
                        | String "}" rest4 => Some (store k v d, rest4)
                        | String "," rest4 => decode_members fuel' (store k v d) rest4
                        | _ => None
                        end
                    | None => None
                    end
                | _ => None
                end
            | None => None
            end
          else None
      | EmptyString => None
      end
  end.

Definition loads (s : string) : option json :=
  match decode (2 * String.length s + 2) s with
  | Some (v, rest) =>
      match skip_space rest with
      | EmptyString => Some v
      | _ => None
      end
  | None => None
  end.

(** [str(e)] for the exceptions the runs below raise: a client error shows
    its message, a [KeyError] the repr of its key. *)
Definition exc_message (e : exn) : string :=
  match e with
  | ApiError msg => msg
  | KeyError (JStr k) => "'" ++ k ++ "'"
  | _ => EmptyString
  end.

(** The runs below interpolate only [str] values, which [format] leaves as
    they are. *)
Definition repr_atom (v : json) : string :=
  match v with
  | JNull => "None"
  | JBool true => "True"
  | JBool false => "False"
  | _ => EmptyString
  end.

Definition runtime_of (chat : trace -> chat_request -> outcome string)
    (search : trace -> search_params -> outcome dict) : runtime :=
  {| json_loads := loads;
     repr := repr_atom;
     exc_str := exc_message;
     strftime_now := fun _ => "November 04, 2026";
     create := chat;
     get_dict := search |}.

Definition agent : AmazonStrategyAgent :=
  {| openai_api_key := "sk-test"; serpapi_key := "serp-test" |}.

Definition start : world := {| calls := []; stdout := [] |}.

(** A JSON string literal and a JSON array of string literals. *)
Definition quoted (s : string) : string := dq ++ s ++ dq.

Definition array (l : list string) : string := "[" ++ join ", " (map quoted l) ++ "]".

(** A classifier response with a category and search terms. *)
Definition classification (category : string) (terms : list string) : string :=
  "{" ++ quoted "category" ++ ": " ++ quoted category ++ ", "
      ++ quoted "search_terms" ++ ": " ++ array terms ++ ", "
      ++ quoted "focus_areas" ++ ": " ++ array ["pricing"; "margins"] ++ ", "
      ++ quoted "analysis_type" ++ ": " ++ quoted "pricing analysis" ++ ", "
      ++ quoted "key_questions" ++ ": " ++ array ["What do rivals charge?"] ++ "}".

(** An organic result and a search response with [n] of them. *)
Definition organic (i : nat) : json :=
  JObj [ ("title", JStr ("Result " ++ str_of_nat i));
         ("snippet", JStr ("Snippet " ++ str_of_nat i));
         ("link", JStr ("https://example.com/" ++ str_of_nat i));
         ("displayed_link", JStr "example.com") ].

Definition response (n : nat) : dict :=
  [ ("organic_results", JArr (map organic (seq 1 n))) ].

(** The LLM answers the classifier with [body] and writes [text] as the
    report: the first call of a request is the classifier's. *)
Definition chat_of (body text : string) : trace -> chat_request -> outcome string :=
  fun t _ => match chat_calls t with [] => Ok body | _ => Ok text end.

Definition failing_chat : trace -> chat_request -> outcome string :=
  fun _ _ => Raise (ApiError "Connection error.").

Definition search_of (n : nat) : trace -> search_params -> outcome dict :=
  fun _ _ => Ok (response n).


(** A classifier response with a category outside the six tags. *)
Definition off_taxonomy_body : string := classification "logistics" ["fba fees"; "fulfilment"].

Definition off_taxonomy_runtime : runtime := runtime_of (chat_of off_taxonomy_body "# Report") (search_of 8).

(** A classifier response that is not JSON. *)
Definition prose_runtime : runtime :=
  runtime_of (chat_of "I think this is a pricing question." "# Report") (search_of 8).

(** A classifier response that is a JSON array. *)
Definition array_runtime : runtime :=
  runtime_of (chat_of (array ["pricing"]) "# Report") (search_of 8).

(** The pricing scenario: category [pricing] and two search terms. *)
Definition pricing_runtime : runtime :=
  runtime_of (chat_of (classification "pricing" ["eco-friendly pricing"; "Amazon pricing trends"])
                "# Pricing report")
             (search_of 8).

(** Three search terms, for the deepest setting. *)
Definition three_terms_runtime : runtime :=
  runtime_of (chat_of (classification "competition" ["top sellers"; "market share"; "brand gaps"])
                "# Report")
             (search_of 8).

(** The LLM writes the same report whatever it is asked. *)
Definition writer_runtime : runtime := runtime_of (fun _ _ => Ok "# Report") (search_of 8).

(** A classification whose focus areas hold a number. *)
Definition bad_focus_body : string :=
  "{" ++ quoted "category" ++ ": " ++ quoted "pricing" ++ ", "
      ++ quoted "search_terms" ++ ": " ++ array ["fba fees"] ++ ", "
      ++ quoted "focus_areas" ++ ": [" ++ quoted "margins" ++ ", 7]}".

Definition bad_focus_runtime : runtime :=
  runtime_of (chat_of bad_focus_body "# Report") (search_of 8).

(** A machine with both keys in its environment and no secrets file. *)
Definition local_host : host :=
  {| getenv := fun name =>
       if String.eqb name "OPENAI_API_KEY" then Some "sk-test"
       else if String.eqb name "SERPAPI_API_KEY" then Some "serp-test"
       else None;
     secrets_get := fun _ => Raise (ApiError "No secrets found.");
     new_client := fun _ => Ok tt |}.

(** A machine with neither environment variables nor secrets file. *)
Definition bare_host : host :=
  {| getenv := fun _ => None;
     secrets_get := fun _ => Raise (ApiError "No secrets found.");
     new_client := fun _ => Ok tt |}.

(** A machine with the OpenAI key alone, and secrets without the other. *)
Definition half_host : host :=
  {| getenv := fun name => if String.eqb name "OPENAI_API_KEY" then Some "sk-test" else None;
     secrets_get := fun _ => Ok JNull;
     new_client := fun _ => Ok tt |}.

(** The LLM classifies, then refuses to write the report. *)
Definition no_report_runtime : runtime :=
  runtime_of (fun _ req =>
                match max_tokens req with
                | Some _ => Raise (ApiError "Rate limit reached.")
                | None => Ok (classification "pricing" ["eco-friendly pricing"])
                end)
             (search_of 8).

(** The LLM is unreachable. *)
Definition offline_runtime : runtime := runtime_of failing_chat (search_of 8).


(** Classifier responses without search terms, and with none. *)
Definition no_terms_body : string :=
  "{" ++ quoted "category" ++ ": " ++ quoted "pricing" ++ "}".

Definition no_terms_runtime : runtime := runtime_of (chat_of no_terms_body "# Report") (search_of 8).

Definition empty_terms_runtime : runtime :=
  runtime_of (chat_of (classification "pricing" []) "# Report") (search_of 8).

End Example.

(* ===================================================================== *)
(** ** Notions the statements use *)
(* ===================================================================== *)

(** [x] occurs in [p] as a substring. *)
Definition occurs_in (x p : string) : Prop :=
  exists a b, p = a ++ x ++ b.

(** Every space replaced by an underscore, character by character. *)
Fixpoint spaces_to_underscores (s : string) : string :=
  match s with
  | EmptyString => EmptyString
  | String c s' => String (if Ascii.eqb c " " then "_"%char else c) (spaces_to_underscores s')
  end.

(** The questions of the two scenarios of the specification. *)
Definition pricing_question : string :=
  "What are pricing trends for eco-friendly products on Amazon?".

Definition skincare_question : string :=
  "What is the best ad strategy for skincare brands in 2024 on Amazon marketplaces today?".

(** A decoded classification is recognised when it is a dict whose category
    is one of the six tags: the test of [analyze_strategy_question]. *)
Definition recognised (v : json) : bool :=
  match get v "category" JNull with
  | Ok category => in_strs category valid_categories
  | Raise _ => false
  end.


(** The world after one more remote call. *)
Definition after (c : call) (w : world) : world :=
  {| calls := c :: calls w; stdout := stdout w |}.


(** A record as [search_amazon_data] builds them. *)
Definition is_search_result (v : json) : Prop :=
  exists title snippet link source,
    v = JObj [ ("title", title); ("snippet", snippet); ("link", link); ("source", source) ].

(** [d.get(k, "")] on a dict. *)
Definition field (k : string) (d : dict) : json :=
  match lookup k d with
  | Some x => x
  | None => JStr ""
  end.

(** The record built from an organic result that is a dict. *)
Definition search_result_of (d : dict) : json :=
  JObj [ ("title", field "title" d);
         ("snippet", field "snippet" d);
         ("link", field "link" d);
         ("source", match lookup "displayed_link" d with
                    | Some x => x
                    | None => field "source" d
                    end) ].

(** [result['link']] of a record. *)
Definition link_of (v : json) : json :=
  match v with
  | JObj d => field "link" d
  | _ => JStr ""
  end.

(** The block one search result adds to the summary of the prompt. *)
Definition summary_block (R : runtime) (i : nat) (r : json) : string :=
  match r with
  | JObj d =>
      if truthy (field "snippet" d)
      then nl ++ "**Source " ++ str_of_nat i ++ ":** " ++ format R (field "title" d) ++ nl
             ++ format R (field "snippet" d) ++ nl ++ "*From: " ++ format R (field "source" d)
             ++ "*" ++ nl
      else EmptyString
  | _ => EmptyString
  end.

(** A computation that makes at most [chat] LLM calls and [search] search
    calls, whatever its outcome, and forgets none of the earlier calls. *)
Definition calls_within {A} (chat search : nat) (m : M A) : Prop :=
  forall w o w', m w = (o, w') ->
    exists new,
      calls w' = (new ++ calls w)%list
      /\ List.length (chat_calls new) <= chat
      /\ List.length (search_calls new) <= search.

Arguments classify_prompt : simpl never.
Arguments report_prompt : simpl never.

(* ===================================================================== *)
(** ** Strings *)
(* ===================================================================== *)

Lemma append_assoc (a b c : string) : (a ++ b) ++ c = a ++ b ++ c.
Proof. induction a as [|x a IH]; simpl; [reflexivity | now rewrite IH]. Qed.

Lemma occurs_here (x b : string) : occurs_in x (x ++ b).
Proof. exists EmptyString, b. reflexivity. Qed.

Lemma occurs_skip (x a t : string) : occurs_in x t -> occurs_in x (a ++ t).
Proof.
  intros [u [v E]]. exists (a ++ u), v. rewrite E. symmetry. apply append_assoc.
Qed.

Lemma starts_with_append (x b : string) : starts_with x (x ++ b) = true.
Proof.
  induction x as [|c x IH]; simpl; [reflexivity|].
  now rewrite Ascii.eqb_refl, IH.
Qed.

Lemma occurs_contains (x p : string) : occurs_in x p -> contains x p = true.
Proof.
  intros [a [b E]]. subst p. induction a as [|c a IH]; simpl.
  - destruct (x ++ b) eqn:E; simpl.
    + destruct x; [reflexivity | discriminate].
    + rewrite <- E, starts_with_append. reflexivity.
  - rewrite IH. apply orb_true_r.
Qed.

Lemma replace_from_char (a b : ascii) (s : string) :
  replace_from (String a EmptyString) (String b EmptyString) 0 s =
  (fix go (s : string) : string :=
     match s with
     | EmptyString => EmptyString
     | String c s' => String (if Ascii.eqb c a then b else c) (go s')
     end) s.
Proof.
  induction s as [|c s IH]; [reflexivity|].
  cbn [replace_from starts_with String.length Nat.sub].
  rewrite Ascii.eqb_sym.
  destruct (Ascii.eqb c a); cbn; now rewrite IH.
Qed.

Lemma replace_space (s : string) : replace " " "_" s = spaces_to_underscores s.
Proof.
  unfold replace. rewrite replace_from_char.
  induction s as [|c s IH]; [reflexivity|]. simpl. now rewrite IH.
Qed.

Lemma str_take_prefix (n : nat) (s : string) : exists rest, s = str_take n s ++ rest.
Proof.
  revert n. induction s as [|c s IH]; intro n.
  - exists EmptyString. reflexivity.
  - simpl. destruct (is_continuation c).
    + destruct (IH n) as [rest E]. exists rest. simpl. now rewrite <- E.
    + destruct n as [|n].
      * exists (String c s). reflexivity.
      * destruct (IH n) as [rest E]. exists rest. simpl. now rewrite <- E.
Qed.

Lemma str_take_len (n : nat) (s : string) :
  str_len (str_take n s) = Nat.min n (str_len s).
Proof.
  revert n. induction s as [|c s IH]; intro n.
  - simpl. now rewrite Nat.min_0_r.
  - simpl. destruct (is_continuation c) eqn:E.
    + simpl. rewrite E. apply IH.
    + destruct n as [|n]; [reflexivity|].
      simpl. rewrite E, IH. reflexivity.
Qed.

(* ===================================================================== *)
(** ** Stepping a computation *)
(* ===================================================================== *)

Lemma bind_ok {A B} {m : M A} (k : A -> M B) {w w' : world} {a : A} :
  m w = (Ok a, w') -> bind m k w = k a w'.
Proof. intro E. unfold bind. now rewrite E. Qed.

Lemma bind_raise {A B} {m : M A} (k : A -> M B) {w w' : world} {e : exn} :
  m w = (Raise e, w') -> bind m k w = (Raise e, w').
Proof. intro E. unfold bind. now rewrite E. Qed.

Lemma bind_lift_ok {A B} {r : outcome A} (k : A -> M B) (w : world) {a : A} :
  r = Ok a -> bind (lift r) k w = k a w.
Proof. intro E. subst r. reflexivity. Qed.

Lemma bind_lift_raise {A B} {r : outcome A} (k : A -> M B) (w : world) {e : exn} :
  r = Raise e -> bind (lift r) k w = (Raise e, w).
Proof. intro E. subst r. reflexivity. Qed.

Lemma bind_ext {A B} (m : M A) (k k' : A -> M B) (w : world) :
  (forall a w', k a w' = k' a w') -> bind m k w = bind m k' w.
Proof. intro E. unfold bind. destruct (m w) as [[a|e] w']; [apply E | reflexivity]. Qed.

Lemma bind_ret {A B} (a : A) (k : A -> M B) (w : world) : bind (ret a) k w = k a w.
Proof. reflexivity. Qed.

(* ===================================================================== *)
(** ** The classifier *)
(* ===================================================================== *)

(** What [analyze_strategy_question] returns, by the answer of the LLM. *)
Lemma analyze_strategy_question_run (R : runtime) (question : string) (w : world) :
  analyze_strategy_question R question w =
  match create R (calls w) (classify_request question) with
  | Raise e => (Raise e, after (ChatCall (classify_request question)) w)
  | Ok response =>
      (Ok match json_loads R response with
          | Some (JObj d) =>
              if recognised (JObj d) then JObj d
              else JObj (store "category" (JStr "general") d)
          | _ => fallback question
          end,
       after (ChatCall (classify_request question)) w)
  end.
Proof.
  unfold analyze_strategy_question, bind, call_create, try_except, after.
  destruct (create R (calls w) (classify_request question)) as [response|e]; [|reflexivity].
  destruct (json_loads R response) as [v|]; [|reflexivity].
  destruct v; try reflexivity.
  unfold recognised, setitem, get, lift, ret.
  destruct (in_strs _ valid_categories); reflexivity.
Qed.

Lemma lookup_store_same {V} (k : string) (v : V) (d : list (string * V)) :
  lookup k (store k v d) = Some v.
Proof.
  induction d as [|[k' v'] d IH]; simpl.
  - now rewrite String.eqb_refl.
  - destruct (String.eqb k k') eqn:E; simpl; rewrite ?String.eqb_refl, ?E; auto.
Qed.

Lemma lookup_store_other {V} (k k' : string) (v : V) (d : list (string * V)) :
  k' <> k -> lookup k' (store k v d) = lookup k' d.
Proof.
  intro N. induction d as [|[k0 v0] d IH]; simpl.
  - destruct (String.eqb_spec k' k); [contradiction | reflexivity].
  - destruct (String.eqb_spec k k0) as [->|N0]; simpl.
    + destruct (String.eqb_spec k' k0); [contradiction | reflexivity].
    + destruct (String.eqb k' k0); auto.
Qed.

Lemma in_strs_In (v : json) (l : list string) :
  in_strs v l = true -> exists c, v = JStr c /\ In c l.
Proof.
  unfold in_strs. rewrite existsb_exists. intros [c [I E]].
  destruct v; simpl in E; try discriminate.
  apply String.eqb_eq in E. subst. eauto.
Qed.

(** The category of a returned classification is one of the six tags. *)
Lemma analyze_category {R : runtime} {question : string} {w w1 : world} {a : json} :
  analyze_strategy_question R question w = (Ok a, w1) ->
  exists c, item a "category" = Ok (JStr c) /\ In c valid_categories.
Proof.
  rewrite analyze_strategy_question_run.
  destruct (create _ _ _) as [response|e]; [|discriminate].
  intro E. injection E as <- _.
  assert (F : exists c, item (fallback question) "category" = Ok (JStr c)
                        /\ In c valid_categories).
  { exists "general". split; [reflexivity | simpl; tauto]. }
  destruct (json_loads R response) as [v|]; [|exact F].
  destruct v; try exact F.
  destruct (recognised (JObj d)) eqn:Rec.
  - unfold recognised, get in Rec.
    apply in_strs_In in Rec. destruct Rec as [c [E I]].
    exists c. split; [|exact I]. simpl.
    destruct (lookup "category" d); [now subst | discriminate].
  - exists "general". split; [|simpl; tauto].
    simpl. now rewrite lookup_store_same.
Qed.

(* ===================================================================== *)
(** ** The searcher *)
(* ===================================================================== *)

Lemma search_request_tag (R : runtime) (self : AmazonStrategyAgent) (query : json)
    (tag : string) :
  exists p, search_request R self query (JStr tag) = Ok p.
Proof. unfold search_request. simpl. eauto. Qed.

(** With a [str] as its search type, [search_amazon_data] makes one search
    call and returns a list, whatever the call does. *)
Lemma search_amazon_data_run (R : runtime) (self : AmazonStrategyAgent) (query : json)
    (tag : string) (p : search_params) (w : world) :
  search_request R self query (JStr tag) = Ok p ->
  exists l out,
    search_amazon_data R self query (JStr tag) w =
      (Ok l, {| calls := SearchCall p :: calls w; stdout := out |})
    /\ (forall e, get_dict R (calls w) p = Raise e -> l = []).
Proof.
  intro E. unfold search_amazon_data. rewrite (bind_lift_ok _ _ E).
  unfold try_except, bind, call_get_dict, print, ret, lift.
  destruct (get_dict R (calls w) p) as [results|e].
  - destruct (lookup "organic_results" results) as [organic|].
    + destruct (slice_to 6 organic) as [top|e1].
      * destruct (iterate top) as [items|e2].
        -- destruct (rmap (normalize) items) as [l|e3]; simpl;
             eexists; eexists; (split; [reflexivity | intros; discriminate || reflexivity]).
        -- simpl. eexists; eexists; (split; [reflexivity | intros; discriminate || reflexivity]).
      * simpl. eexists; eexists; (split; [reflexivity | intros; discriminate || reflexivity]).
    + simpl. eexists; eexists; (split; [reflexivity | intros; discriminate]).
  - simpl. eexists; eexists; (split; [reflexivity | reflexivity]).
Qed.

(* ===================================================================== *)
(** ** The driver *)
(* ===================================================================== *)

Arguments search_amazon_data : simpl never.
Arguments generate_enhanced_report : simpl never.
Arguments analyze_strategy_question : simpl never.

(** The run of [research_and_analyze] after a classification whose search
    terms are a list: the searches it makes, and Step 3 on what they
    gathered. *)
Lemma research_and_analyze_run (R : runtime) (self : AmazonStrategyAgent)
    (question depth : string) {w w1 : world} {a : json} {terms : list json} {c : string} :
  analyze_strategy_question R question w = (Ok a, w1) ->
  item a "search_terms" = Ok (JArr terms) ->
  item a "category" = Ok (JStr c) ->
  exists l1 l2 l3 w2 w3 w4,
    search_amazon_data R self (hd (JStr question) terms) (JStr c) w1 = (Ok l1, w2)
    /\ (if (3 <=? num_searches depth) && (1 <? List.length terms)
        then search_amazon_data R self (nth 1 terms JNull) (JStr "general") w2 = (Ok l2, w3)
        else l2 = [] /\ w3 = w2)
    /\ (if (4 <=? num_searches depth) && (2 <? List.length terms)
        then search_amazon_data R self (nth 2 terms JNull) (JStr c) w3 = (Ok l3, w4)
        else l3 = [] /\ w4 = w3)
    /\ research_and_analyze R self question depth w =
       (report <- generate_enhanced_report R question
                    (firstn 3 l1 ++ firstn 2 l2 ++ firstn 2 l3)%list a (JStr c) ;;
        sources <- lift (links (firstn 3 l1 ++ firstn 2 l2 ++ firstn 2 l3)%list) ;;
        used <- lift (dict_item report_templates (JStr c)) ;;
        ret {| question := question;
               analysis := a;
               search_results := (firstn 3 l1 ++ firstn 2 l2 ++ firstn 2 l3)%list;
               report := report;
               sources := sources;
               report_type := JStr c;
               template_used := title used |}) w4.
Proof.
  intros Ha Ht Hc.
  assert (Lc : forall w0, lift (item a "category") w0 = (Ok (JStr c), w0)).
  { intro w0. unfold lift. now rewrite Hc. }
  unfold research_and_analyze.
  rewrite (bind_ok _ Ha).
  rewrite (bind_lift_ok _ _ Ht).
  assert (T : (if truthy (JArr terms)
               then lift (let! terms0 := item a "search_terms" in index terms0 0)
               else ret (JStr question)) w1 = (Ok (hd (JStr question) terms), w1)).
  { rewrite Ht. destruct terms; reflexivity. }
  rewrite (bind_ok _ T), (bind_ok _ (Lc w1)).
  destruct (search_request_tag R self (hd (JStr question) terms) c) as [p1 Ep1].
  destruct (search_amazon_data_run R self _ _ _ w1 Ep1) as [l1 [o1 [E1 _]]].
  rewrite (bind_ok _ E1).
  set (w2 := {| calls := SearchCall p1 :: calls w1; stdout := o1 |}) in *.
  exists l1.
  set (second := (3 <=? num_searches depth) && (1 <? List.length terms)).
  assert (S2 : (if 3 <=? num_searches depth
                then lift (let! terms0 := item a "search_terms" in
                           let! n := len terms0 in Ok (1 <? n))
                else ret false) w2 = (Ok second, w2)).
  { rewrite Ht. unfold second. destruct (3 <=? num_searches depth); reflexivity. }
  rewrite (bind_ok _ S2).
  assert (C2 : exists l2 w3,
             (if second
              then search_amazon_data R self (nth 1 terms JNull) (JStr "general") w2
                   = (Ok l2, w3)
              else l2 = [] /\ w3 = w2)
             /\ (if second
                 then term <- lift (let! terms0 := item a "search_terms" in index terms0 1) ;;
                      secondary_results <- search_amazon_data R self term (JStr "general") ;;
                      ret (([] ++ firstn 3 l1) ++ firstn 2 secondary_results)%list
                 else ret ([] ++ firstn 3 l1)%list) w2
                = (Ok (firstn 3 l1 ++ firstn 2 l2)%list, w3)).
  { destruct second eqn:Es.
    - destruct (search_request_tag R self (nth 1 terms JNull) "general") as [p2 Ep2].
      destruct (search_amazon_data_run R self _ _ _ w2 Ep2) as [l2 [o2 [E2 _]]].
      exists l2. eexists. split; [exact E2|].
      assert (I : (let! terms0 := item a "search_terms" in index terms0 1)
                  = Ok (nth 1 terms JNull)).
      { rewrite Ht. unfold second in Es. apply andb_prop in Es. destruct Es as [_ Es].
        apply Nat.ltb_lt in Es.
        destruct terms as [|t1 [|t2 rest]]; simpl in Es; try lia. reflexivity. }
      rewrite (bind_lift_ok _ _ I), (bind_ok _ E2). reflexivity.
    - exists [], w2. split; [split; reflexivity|].
      unfold ret. simpl. now rewrite app_nil_r. }
  destruct C2 as [l2 [w3 [D2 C2]]].
  rewrite (bind_ok _ C2).
  exists l2.
  set (third := (4 <=? num_searches depth) && (2 <? List.length terms)).
  assert (S3 : (if 4 <=? num_searches depth
                then lift (let! terms0 := item a "search_terms" in
                           let! n := len terms0 in Ok (2 <? n))
                else ret false) w3 = (Ok third, w3)).
  { rewrite Ht. unfold third. destruct (4 <=? num_searches depth); reflexivity. }
  rewrite (bind_ok _ S3).
  assert (C3 : exists l3 w4,
             (if third
              then search_amazon_data R self (nth 2 terms JNull) (JStr c) w3 = (Ok l3, w4)
              else l3 = [] /\ w4 = w3)
             /\ (if third
                 then term <- lift (let! terms0 := item a "search_terms" in index terms0 2) ;;
                      category <- lift (item a "category") ;;
                      tertiary_results <- search_amazon_data R self term category ;;
                      ret ((firstn 3 l1 ++ firstn 2 l2) ++ firstn 2 tertiary_results)%list
                 else ret (firstn 3 l1 ++ firstn 2 l2)%list) w3
                = (Ok (firstn 3 l1 ++ firstn 2 l2 ++ firstn 2 l3)%list, w4)).
  { destruct third eqn:Es.
    - destruct (search_request_tag R self (nth 2 terms JNull) c) as [p3 Ep3].
      destruct (search_amazon_data_run R self _ _ _ w3 Ep3) as [l3 [o3 [E3 _]]].
      exists l3. eexists. split; [exact E3|].
      assert (I : (let! terms0 := item a "search_terms" in index terms0 2)
                  = Ok (nth 2 terms JNull)).
      { rewrite Ht. unfold third in Es. apply andb_prop in Es. destruct Es as [_ Es].
        apply Nat.ltb_lt in Es.
        destruct terms as [|t1 [|t2 [|t3 rest]]]; simpl in Es; try lia. reflexivity. }
      rewrite (bind_lift_ok _ _ I), (bind_ok _ (Lc w3)), (bind_ok _ E3).
      unfold ret. now rewrite app_assoc.
    - exists [], w3. split; [split; reflexivity|].
      unfold ret. simpl. now rewrite app_nil_r. }
  destruct C3 as [l3 [w4 [D3 C3]]].
  rewrite (bind_ok _ C3).
  exists l3, w2, w3, w4.
  split; [exact E1|]. split; [exact D2|]. split; [exact D3|].
  rewrite (bind_ok _ (Lc w4)).
  apply bind_ext. intros report0 w5.
  apply bind_ext. intros srcs w6.
  now rewrite (bind_ok _ (Lc w6)), (bind_ok _ (Lc w6)).
Qed.

Lemma analyze_strategy_question_calls {R : runtime} {question : string} {w w1 : world}
    {o : outcome json} :
  analyze_strategy_question R question w = (o, w1) ->
  w1 = after (ChatCall (classify_request question)) w.
Proof.
  rewrite analyze_strategy_question_run.
  destruct (create _ _ _); intro E; now inversion E.
Qed.

Lemma search_amazon_data_calls {R : runtime} {self : AmazonStrategyAgent} {query : json}
    {tag : string} {p : search_params} {w w' : world} {o : outcome (list json)} :
  search_request R self query (JStr tag) = Ok p ->
  search_amazon_data R self query (JStr tag) w = (o, w') ->
  calls w' = SearchCall p :: calls w.
Proof.
  intros Ep E.
  destruct (search_amazon_data_run R self _ _ _ w Ep) as [l [out [E' _]]].
  rewrite E' in E. now inversion E.
Qed.

Lemma generate_enhanced_report_calls {R : runtime} {question : string}
    {search_results : list json} {analysis template_type : json} {w w' : world}
    {o : outcome string} :
  generate_enhanced_report R question search_results analysis template_type w = (o, w') ->
  search_calls (calls w') = search_calls (calls w).
Proof.
  unfold generate_enhanced_report, bind, now, lift, call_create, ret.
  destruct (let! general := _ in _); [|intro E; now inversion E].
  destruct (search_summary_loop _ _ _ _); [|intro E; now inversion E].
  destruct (enhanced_report_prompt _ _ _ _ _ _); [|intro E; now inversion E].
  destruct (create R _ _); intro E; now inversion E.
Qed.

(** Step 3 leaves the world as the synthesizer left it. *)
Lemma step3_world {A B C} {m : M A} {r1 : A -> outcome B} {r2 : outcome C}
    {k : A -> B -> C -> ResearchResult} {w w' : world} {out : outcome ResearchResult} :
  (x <- m ;; y <- lift (r1 x) ;; z <- lift r2 ;; ret (k x y z)) w = (out, w') ->
  w' = snd (m w).
Proof.
  unfold bind, lift, ret. destruct (m w) as [[x|e] w5]; simpl.
  - destruct (r1 x); [destruct r2|]; intro E; now inversion E.
  - intro E. now inversion E.
Qed.

Lemma step3_result {A B C} {m : M A} {r1 : A -> outcome B} {r2 : outcome C}
    {k : A -> B -> C -> ResearchResult} {w w' : world} {r : ResearchResult} :
  (x <- m ;; y <- lift (r1 x) ;; z <- lift r2 ;; ret (k x y z)) w = (Ok r, w') ->
  exists x y z, m w = (Ok x, w') /\ r1 x = Ok y /\ r2 = Ok z /\ r = k x y z.
Proof.
  unfold bind, lift, ret. destruct (m w) as [[x|e] w5]; simpl.
  - destruct (r1 x) as [y|] eqn:E1; [destruct r2 as [z|]|]; intro E; try discriminate E.
    injection E as <- <-. exists x, y, z. auto.
  - intro E. discriminate E.
Qed.

(** The search calls of a run after a classification whose search terms
    are a list, and the aggregated list when the run returns. *)
Lemma research_and_analyze_searches {R : runtime} {self : AmazonStrategyAgent}
    {question depth : string} {w w1 w' : world} {a : json} {terms : list json} {c : string}
    {out : outcome ResearchResult} :
  analyze_strategy_question R question w = (Ok a, w1) ->
  item a "search_terms" = Ok (JArr terms) ->
  item a "category" = Ok (JStr c) ->
  research_and_analyze R self question depth w = (out, w') ->
  exists p1 p2 p3 l1 l2 l3,
    search_request R self (hd (JStr question) terms) (JStr c) = Ok p1
    /\ search_calls (calls w') =
       ((if (4 <=? num_searches depth) && (2 <? List.length terms) then [p3] else [])
        ++ (if (3 <=? num_searches depth) && (1 <? List.length terms) then [p2] else [])
        ++ [p1] ++ search_calls (calls w))%list
    /\ ((3 <=? num_searches depth) && (1 <? List.length terms) = false -> l2 = [])
    /\ ((4 <=? num_searches depth) && (2 <? List.length terms) = false -> l3 = [])
    /\ forall r, out = Ok r ->
         search_results r = (firstn 3 l1 ++ firstn 2 l2 ++ firstn 2 l3)%list
         /\ exists used, lookup c report_templates = Some used /\ template_used r = title used.
Proof.
  intros Ha Ht Hc Hr.
  destruct (research_and_analyze_run R self question depth Ha Ht Hc)
    as [l1 [l2 [l3 [w2 [w3 [w4 [E1 [D2 [D3 E]]]]]]]]].
  rewrite E in Hr. clear E.
  destruct (search_request_tag R self (hd (JStr question) terms) c) as [p1 Ep1].
  destruct (search_request_tag R self (nth 1 terms JNull) "general") as [p2 Ep2].
  destruct (search_request_tag R self (nth 2 terms JNull) c) as [p3 Ep3].
  exists p1, p2, p3, l1, l2, l3.
  split; [exact Ep1|].
  pose proof (search_amazon_data_calls Ep1 E1) as K1.
  pose proof (analyze_strategy_question_calls Ha) as K0.
  assert (K2 : calls w3 =
               ((if (3 <=? num_searches depth) && (1 <? List.length terms)
                 then [SearchCall p2] else []) ++ calls w2)%list
               /\ ((3 <=? num_searches depth) && (1 <? List.length terms) = false
                   -> l2 = [])).
  { destruct ((3 <=? num_searches depth) && (1 <? List.length terms)).
    - split; [exact (search_amazon_data_calls Ep2 D2) | discriminate].
    - destruct D2 as [-> ->]. split; reflexivity. }
  assert (K3 : calls w4 =
               ((if (4 <=? num_searches depth) && (2 <? List.length terms)
                 then [SearchCall p3] else []) ++ calls w3)%list
               /\ ((4 <=? num_searches depth) && (2 <? List.length terms) = false
                   -> l3 = [])).
  { destruct ((4 <=? num_searches depth) && (2 <? List.length terms)).
    - split; [exact (search_amazon_data_calls Ep3 D3) | discriminate].
    - destruct D3 as [-> ->]. split; reflexivity. }
  destruct K2 as [K2 N2]. destruct K3 as [K3 N3].
  split; [|split; [exact N2 | split; [exact N3|]]].
  - pose proof (step3_world Hr) as W.
    destruct (generate_enhanced_report R question _ a (JStr c) w4) as [o5 w5] eqn:G.
    simpl in W. subst w'.
    rewrite (generate_enhanced_report_calls G), K3, K2, K1, K0.
    destruct ((4 <=? num_searches depth) && (2 <? List.length terms));
      destruct ((3 <=? num_searches depth) && (1 <? List.length terms)); reflexivity.
  - intros r ->.
    destruct (step3_result Hr) as [x [y [z [_ [_ [Z ->]]]]]].
    split; [reflexivity|]. exists z. split; [|reflexivity].
    unfold dict_item in Z. destruct (lookup c report_templates); now inversion Z.
Qed.

(* ===================================================================== *)
(** ** The classifier: fallback and category invariant *)
(* ===================================================================== *)

(** C1, as the specification states it, fails: a response that decodes to an
    object with the category [logistics] is returned with its category set
    to [general] and with its own two search terms, not with the question
    as its single search term. *)
Lemma off_taxonomy_keeps_search_terms :
  create Example.off_taxonomy_runtime [] (classify_request pricing_question)
    = Ok Example.off_taxonomy_body
  /\ (exists v, json_loads Example.off_taxonomy_runtime Example.off_taxonomy_body = Some v
                /\ get v "category" JNull = Ok (JStr "logistics")
                /\ in_strs (JStr "logistics") valid_categories = false)
  /\ exists a w1,
       analyze_strategy_question Example.off_taxonomy_runtime pricing_question Example.start
         = (Ok a, w1)
       /\ item a "category" = Ok (JStr "general")
       /\ item a "search_terms" = Ok (JArr [JStr "fba fees"; JStr "fulfilment"])
       /\ item a "search_terms" <> Ok (JArr [JStr pricing_question]).
Proof.
  split; [reflexivity|]. split.
  - eexists. split; [vm_compute; reflexivity|]. split; reflexivity.
  - eexists. eexists. split; [vm_compute; reflexivity|].
    split; [reflexivity|]. split; [reflexivity|]. discriminate.
Qed.

(** C1 (amended). When the body of the classifier's response is not valid
    JSON, or decodes to something that is not an object,
    [analyze_strategy_question] returns the fallback classification:
    category [general], the question as the only search term and as the
    only key question. When the body decodes to an object whose category is
    outside the six tags, it returns that object with its category set to
    [general] and every other entry, the search terms included, as
    decoded. *)
Theorem analyze_fallback_or_coerce (R : runtime) (question : string) (w : world)
    (body : string) :
  create R (calls w) (classify_request question) = Ok body ->
  (json_loads R body = None
   \/ (exists v, json_loads R body = Some v /\ forall d, v <> JObj d) ->
   analyze_strategy_question R question w
     = (Ok (fallback question), after (ChatCall (classify_request question)) w)
   /\ item (fallback question) "category" = Ok (JStr "general")
   /\ item (fallback question) "search_terms" = Ok (JArr [JStr question])
   /\ item (fallback question) "key_questions" = Ok (JArr [JStr question]))
  /\ (forall d, json_loads R body = Some (JObj d) -> recognised (JObj d) = false ->
      analyze_strategy_question R question w
        = (Ok (JObj (store "category" (JStr "general") d)),
           after (ChatCall (classify_request question)) w)
      /\ lookup "category" (store "category" (JStr "general") d) = Some (JStr "general")
      /\ forall k, k <> "category" ->
           lookup k (store "category" (JStr "general") d) = lookup k d).
Proof.
  intro C. split.
  - intro H. split; [|repeat split].
    rewrite analyze_strategy_question_run, C.
    destruct H as [-> | [v [-> N]]]; [reflexivity|].
    destruct v; try reflexivity. now elim (N d).
  - intros d L Rec. split; [|split].
    + now rewrite analyze_strategy_question_run, C, L, Rec.
    + apply lookup_store_same.
    + intros k N. now apply lookup_store_other.
Qed.

Lemma analyze_fallback_or_coerce_witness :
  (analyze_strategy_question Example.prose_runtime pricing_question Example.start
     = (Ok (fallback pricing_question),
        after (ChatCall (classify_request pricing_question)) Example.start))
  /\ (analyze_strategy_question Example.array_runtime pricing_question Example.start
       = (Ok (fallback pricing_question),
          after (ChatCall (classify_request pricing_question)) Example.start))
  /\ exists d,
       json_loads Example.off_taxonomy_runtime Example.off_taxonomy_body = Some (JObj d)
       /\ analyze_strategy_question Example.off_taxonomy_runtime pricing_question Example.start
          = (Ok (JObj (store "category" (JStr "general") d)),
             after (ChatCall (classify_request pricing_question)) Example.start)
       /\ lookup "search_terms" (store "category" (JStr "general") d)
          = Some (JArr [JStr "fba fees"; JStr "fulfilment"]).
Proof.
  split; [|split].
  - apply (analyze_fallback_or_coerce Example.prose_runtime pricing_question Example.start
             "I think this is a pricing question."); [reflexivity|].
    left. vm_compute. reflexivity.
  - apply (analyze_fallback_or_coerce Example.array_runtime pricing_question Example.start
             (Example.array ["pricing"])); [reflexivity|].
    right. exists (JArr [JStr "pricing"]). split; [vm_compute; reflexivity | discriminate].
  - eexists. split; [vm_compute; reflexivity|].
    split.
    + apply (analyze_fallback_or_coerce Example.off_taxonomy_runtime pricing_question
               Example.start Example.off_taxonomy_body);
        [reflexivity | vm_compute; reflexivity | vm_compute; reflexivity].
    + reflexivity.
Defined.

(** C7. The category of every classification [analyze_strategy_question]
    returns is one of the six tags, and it is [general] whenever the
    response could not be decoded or its category was not recognised. *)
Theorem analyze_category_invariant (R : runtime) (question : string) (w w1 : world)
    (a : json) :
  analyze_strategy_question R question w = (Ok a, w1) ->
  exists c,
    item a "category" = Ok (JStr c)
    /\ In c valid_categories
    /\ forall body,
         create R (calls w) (classify_request question) = Ok body ->
         match json_loads R body with
         | Some v => recognised v = false
         | None => True
         end ->
         c = "general".
Proof.
  intro H. destruct (analyze_category H) as [c [I V]].
  exists c. split; [exact I|]. split; [exact V|].
  intros body C U. rewrite analyze_strategy_question_run, C in H.
  injection H as <- _.
  assert (G : forall x, item x "category" = Ok (JStr "general") ->
                        item x "category" = Ok (JStr c) -> c = "general").
  { intros x E1 E2. rewrite E1 in E2. now injection E2. }
  destruct (json_loads R body) as [v|]; [|now apply (G (fallback question))].
  destruct v; try now apply (G (fallback question)).
  rewrite U in I. unfold item in I.
  rewrite lookup_store_same in I. now injection I.
Qed.

Lemma analyze_category_invariant_witness :
  analyze_strategy_question Example.prose_runtime pricing_question Example.start
    = (Ok (fallback pricing_question),
       after (ChatCall (classify_request pricing_question)) Example.start)
  /\ exists c,
       item (fallback pricing_question) "category" = Ok (JStr c)
       /\ In c valid_categories
       /\ c = "general".
Proof.
  assert (H : analyze_strategy_question Example.prose_runtime pricing_question Example.start
              = (Ok (fallback pricing_question),
                 after (ChatCall (classify_request pricing_question)) Example.start))
    by (vm_compute; reflexivity).
  split; [exact H|].
  destruct (analyze_category_invariant Example.prose_runtime pricing_question
              Example.start _ _ H) as [c [I [V G]]].
  exists c. split; [exact I|]. split; [exact V|].
  apply (G "I think this is a pricing question."); [reflexivity|].
  vm_compute. exact Logic.I.
Defined.

(* ===================================================================== *)
(** ** Failures of the classifier call *)
(* ===================================================================== *)

(** C6. When the classifier's LLM call raises, [research_and_analyze] raises
    the same exception after that one call: no search is made, no report
    is written and no result is returned. The handler of the button then
    draws the progress widgets followed by the error message and the
    troubleshooting tips, and nothing of a report or of its sources. *)
Theorem classifier_error_propagates (R : runtime) (self : AmazonStrategyAgent)
    (question depth : string) (w : world) (e : exn) :
  create R (calls w) (classify_request question) = Raise e ->
  research_and_analyze R self question depth w
    = (Raise e, after (ChatCall (classify_request question)) w)
  /\ (question <> "" ->
      generate_strategy_report R self true question depth w
        = ((progress_widgets ++ error_widgets R e)%list,
           after (ChatCall (classify_request question)) w)).
Proof.
  intro C.
  assert (A : analyze_strategy_question R question w
              = (Raise e, after (ChatCall (classify_request question)) w)).
  { now rewrite analyze_strategy_question_run, C. }
  assert (D : research_and_analyze R self question depth w
              = (Raise e, after (ChatCall (classify_request question)) w)).
  { unfold research_and_analyze. now rewrite (bind_raise _ A). }
  split; [exact D|].
  intro N. unfold generate_strategy_report.
  destruct (String.eqb_spec question ""); [contradiction|].
  simpl negb. cbv iota. now rewrite D.
Qed.

Lemma classifier_error_propagates_witness :
  research_and_analyze Example.offline_runtime Example.agent pricing_question "Deep Dive"
    Example.start
    = (Raise (ApiError "Connection error."),
       after (ChatCall (classify_request pricing_question)) Example.start)
  /\ generate_strategy_report Example.offline_runtime Example.agent true pricing_question
       "Deep Dive" Example.start
     = ((progress_widgets
           ++ [ StError "❌ **Error generating report:** Connection error.";
                StMarkdown "
                **Troubleshooting tips:**
                - Check your internet connection
                - Verify API keys are configured correctly  
                - Try a simpler question to test the system
                - Contact support if the issue persists
                " false ])%list,
        after (ChatCall (classify_request pricing_question)) Example.start).
Proof.
  destruct (classifier_error_propagates Example.offline_runtime Example.agent
              pricing_question "Deep Dive" Example.start (ApiError "Connection error."))
    as [D H].
  - reflexivity.
  - split; [exact D|]. apply H. discriminate.
Defined.

(* ===================================================================== *)
(** ** The searches of the driver *)
(* ===================================================================== *)



(** C8. For the question about pricing trends at depth "Deep Dive", when
    the classifier returns the category [pricing] with at least two search
    terms, exactly two search calls are made and the result returned has
    the pricing template's title as [template_used]. *)
Theorem pricing_scenario (R : runtime) (self : AmazonStrategyAgent) (w w1 w' : world)
    (a : json) (terms : list json) (out : outcome ResearchResult) :
  analyze_strategy_question R pricing_question w = (Ok a, w1) ->
  item a "category" = Ok (JStr "pricing") ->
  item a "search_terms" = Ok (JArr terms) ->
  2 <= List.length terms ->
  research_and_analyze R self pricing_question "Deep Dive" w = (out, w') ->
  (exists p1 p2, search_calls (calls w') = p2 :: p1 :: search_calls (calls w))
  /\ forall r, out = Ok r -> template_used r = "💰 Pricing Strategy Report".
Proof.
  intros Ha Hc Ht Len Hr.
  destruct (research_and_analyze_searches Ha Ht Hc Hr)
    as [p1 [p2 [p3 [l1 [l2 [l3 [_ [K [_ [_ F]]]]]]]]]].
  assert (S2 : (1 <? List.length terms) = true) by (apply Nat.ltb_lt; lia).
  simpl in K. rewrite S2 in K. simpl in K.
  split; [exists p1, p2; exact K|].
  intros r E. destruct (F r E) as [_ [used [L ->]]].
  vm_compute in L. now injection L as <-.
Qed.

Lemma pricing_scenario_witness :
  exists r w',
    research_and_analyze Example.pricing_runtime Example.agent pricing_question "Deep Dive"
      Example.start = (Ok r, w')
    /\ (exists p1 p2, search_calls (calls w') = [p2; p1])
    /\ template_used r = "💰 Pricing Strategy Report".
Proof.
  destruct (research_and_analyze Example.pricing_runtime Example.agent pricing_question
              "Deep Dive" Example.start) as [out w'] eqn:Hr.
  assert (O : exists r, out = Ok r).
  { apply (f_equal fst) in Hr. simpl in Hr. rewrite <- Hr.
    vm_compute. eexists. reflexivity. }
  destruct O as [r ->].
  exists r, w'. split; [reflexivity|].
  destruct (pricing_scenario Example.pricing_runtime Example.agent Example.start
              (after (ChatCall (classify_request pricing_question)) Example.start) w'
              (JObj [ ("category", JStr "pricing");
                      ("search_terms",
                       JArr [JStr "eco-friendly pricing"; JStr "Amazon pricing trends"]);
                      ("focus_areas", JArr [JStr "pricing"; JStr "margins"]);
                      ("analysis_type", JStr "pricing analysis");
                      ("key_questions", JArr [JStr "What do rivals charge?"]) ])
              [JStr "eco-friendly pricing"; JStr "Amazon pricing trends"] (Ok r))
    as [K T].
  - vm_compute. reflexivity.
  - reflexivity.
  - reflexivity.
  - simpl. lia.
  - exact Hr.
  - split; [exact K | exact (T r eq_refl)].
Defined.

Lemma bind_inv {A B} {m : M A} {k : A -> M B} {w w' : world} {b : B} :
  bind m k w = (Ok b, w') ->
  exists a w1, m w = (Ok a, w1) /\ k a w1 = (Ok b, w').
Proof.
  unfold bind. destruct (m w) as [[a|e] w1]; [|discriminate].
  intro E. exists a, w1. auto.
Qed.

Lemma ret_inv {A} {a b : A} {w w' : world} : ret a w = (Ok b, w') -> a = b /\ w = w'.
Proof. unfold ret. intro E. now inversion E. Qed.

(** Whatever the classification, the aggregated list of a returned result
    is made of at most 3, 2 and 2 results, and the report is what the
    synthesizer returned when given that list. *)
Lemma research_results_shape {R : runtime} {self : AmazonStrategyAgent}
    {question depth : string} {w w' : world} {r : ResearchResult} :
  research_and_analyze R self question depth w = (Ok r, w') ->
  exists l1 l2 l3 category w4,
    search_results r = (firstn 3 l1 ++ firstn 2 l2 ++ firstn 2 l3)%list
    /\ generate_enhanced_report R question (search_results r) (analysis r) category w4
       = (Ok (report r), w').
Proof.
  unfold research_and_analyze. intro H.
  apply bind_inv in H as [a [w1 [_ H]]].
  apply bind_inv in H as [test [w1' [_ H]]].
  apply bind_inv in H as [term [w1'' [_ H]]].
  apply bind_inv in H as [cat [w1''' [_ H]]].
  apply bind_inv in H as [l1 [w2 [_ H]]].
  apply bind_inv in H as [second [w2' [_ H]]].
  apply bind_inv in H as [all1 [w3 [H2 H]]].
  apply bind_inv in H as [third [w3' [_ H]]].
  apply bind_inv in H as [all2 [w4 [H3 H]]].
  apply bind_inv in H as [cat' [w4' [L H]]].
  apply bind_inv in H as [rep [w5 [G H]]].
  apply bind_inv in H as [srcs [w5' [L1 H]]].
  apply bind_inv in H as [rt [w5'' [L2 H]]].
  apply bind_inv in H as [key [w5''' [L3 H]]].
  apply bind_inv in H as [used [w6 [L4 H]]].
  apply ret_inv in H as [<- <-].
  assert (W : w4' = w4) by (unfold lift in L; now inversion L).
  assert (W1 : w5' = w5) by (unfold lift in L1; now inversion L1).
  assert (W2 : w5'' = w5') by (unfold lift in L2; now inversion L2).
  assert (W3 : w5''' = w5'') by (unfold lift in L3; now inversion L3).
  assert (W4 : w6 = w5''') by (unfold lift in L4; now inversion L4).
  subst. simpl.
  assert (A1 : exists l2, all1 = (firstn 3 l1 ++ firstn 2 l2)%list).
  { destruct second.
    - apply bind_inv in H2 as [t2 [v [_ H2]]].
      apply bind_inv in H2 as [l2 [v' [_ H2]]].
      apply ret_inv in H2 as [<- _]. exists l2. reflexivity.
    - apply ret_inv in H2 as [<- _]. exists []. simpl. now rewrite app_nil_r. }
  destruct A1 as [l2 ->].
  assert (A2 : exists l3, all2 = (firstn 3 l1 ++ firstn 2 l2 ++ firstn 2 l3)%list).
  { destruct third.
    - apply bind_inv in H3 as [t3 [v [_ H3]]].
      apply bind_inv in H3 as [c3 [v' [_ H3]]].
      apply bind_inv in H3 as [l3 [v'' [_ H3]]].
      apply ret_inv in H3 as [<- _]. exists l3. now rewrite app_assoc.
    - apply ret_inv in H3 as [<- _]. exists []. simpl. now rewrite app_nil_r. }
  destruct A2 as [l3 ->].
  exists l1, l2, l3, cat', w4. split; [reflexivity | exact G].
Qed.

Lemma firstn_firstn_same {A} (n : nat) (l : list A) : firstn n (firstn n l) = firstn n l.
Proof. rewrite firstn_firstn. now rewrite Nat.min_id. Qed.

(** C2, as the specification states it, fails: at depth "Comprehensive
    Report", with three search terms and a search service that answers 8
    results each time, the list handed to the synthesizer, which is the
    [search_results] of the result, has 7 entries. *)
Lemma seven_results_are_aggregated :
  exists r w',
    research_and_analyze Example.three_terms_runtime Example.agent pricing_question
      "Comprehensive Report" Example.start = (Ok r, w')
    /\ List.length (search_results r) = 7
    /\ ~ List.length (search_results r) <= 4.
Proof.
  destruct (research_and_analyze Example.three_terms_runtime Example.agent pricing_question
              "Comprehensive Report" Example.start) as [out w'] eqn:Hr.
  assert (O : exists r, out = Ok r /\ List.length (search_results r) = 7).
  { apply (f_equal fst) in Hr. simpl in Hr. rewrite <- Hr.
    vm_compute. eexists. split; reflexivity. }
  destruct O as [r [-> L]].
  exists r, w'. split; [reflexivity|]. split; [exact L|]. rewrite L. lia.
Qed.

(** C2 (amended). The aggregated list that [research_and_analyze] hands to
    the synthesizer, and returns as [search_results], has at most 7
    entries (3 + 2 + 2); the synthesizer reads only its first 4 when it
    builds the prompt. *)
Theorem aggregated_results_bound (R : runtime) (self : AmazonStrategyAgent)
    (question depth : string) (w w' : world) (r : ResearchResult) :
  research_and_analyze R self question depth w = (Ok r, w') ->
  List.length (search_results r) <= 7
  /\ (exists category w4,
        generate_enhanced_report R question (search_results r) (analysis r) category w4
          = (Ok (report r), w'))
  /\ forall category w4,
       generate_enhanced_report R question (search_results r) (analysis r) category w4
         = generate_enhanced_report R question (firstn 4 (search_results r)) (analysis r)
             category w4.
Proof.
  intro H.
  destruct (research_results_shape H) as [l1 [l2 [l3 [cat [w4 [S G]]]]]].
  split; [|split].
  - rewrite S, !length_app.
    pose proof (firstn_le_length 3 l1). pose proof (firstn_le_length 2 l2).
    pose proof (firstn_le_length 2 l3). lia.
  - exists cat, w4. exact G.
  - intros category v. unfold generate_enhanced_report.
    now rewrite firstn_firstn_same.
Qed.

Lemma aggregated_results_bound_witness :
  exists r w',
    research_and_analyze Example.three_terms_runtime Example.agent pricing_question
      "Comprehensive Report" Example.start = (Ok r, w')
    /\ List.length (search_results r) <= 7.
Proof.
  destruct (research_and_analyze Example.three_terms_runtime Example.agent pricing_question
              "Comprehensive Report" Example.start) as [out w'] eqn:Hr.
  assert (O : exists r, out = Ok r).
  { apply (f_equal fst) in Hr. simpl in Hr. rewrite <- Hr.
    vm_compute. eexists. reflexivity. }
  destruct O as [r ->].
  exists r, w'. split; [reflexivity|].
  exact (proj1 (aggregated_results_bound Example.three_terms_runtime Example.agent
                  pricing_question "Comprehensive Report" Example.start w' r Hr)).
Defined.

(* ===================================================================== *)
(** ** The prompt of the synthesizer *)
(* ===================================================================== *)

Lemma report_prompt_occurs
    (title current_date question analysis_type focus_areas search_summary
     section0 section1 section2 section3 : string) :
  let p := report_prompt title current_date question analysis_type focus_areas
             search_summary section0 section1 section2 section3 in
  occurs_in title p /\ occurs_in section0 p /\ occurs_in section1 p
  /\ occurs_in section2 p /\ occurs_in section3 p.
Proof.
  unfold report_prompt.
  repeat split; repeat first [apply occurs_here | apply occurs_skip].
Qed.

Lemma template_sections (tag : string) (tpl : template) :
  lookup tag report_templates = Some tpl ->
  exists s0 s1 s2 s3, sections tpl = [s0; s1; s2; s3].
Proof.
  unfold report_templates. simpl.
  repeat match goal with
         | |- (if ?c then _ else _) = _ -> _ => destruct c
         end;
    intro E; try discriminate; injection E as <-; simpl; eauto.
Qed.

Lemma not_own_tail {A} (x : A) (l : list A) : l <> x :: l.
Proof. intro E. apply (f_equal (@List.length A)) in E. simpl in E. lia. Qed.

(** The prompt built for a tag of the table holds the template's title and
    its four section names in upper case. *)
Lemma enhanced_report_prompt_names (R : runtime) (question : string)
    (analysis : json) (tag : string) (tpl : template)
    (current_date search_summary prompt : string) :
  lookup tag report_templates = Some tpl ->
  enhanced_report_prompt R tpl current_date question analysis search_summary = Ok prompt ->
  occurs_in (title tpl) prompt
  /\ List.length (sections tpl) = 4
  /\ Forall (fun s => occurs_in (upper s) prompt) (sections tpl).
Proof.
  intros L P.
  destruct (template_sections _ _ L) as [s0 [s1 [s2 [s3 S]]]].
  unfold enhanced_report_prompt in P.
  destruct (get analysis "analysis_type" _); [|discriminate]. cbn [rbind] in P.
  destruct (get analysis "focus_areas" _); [|discriminate]. cbn [rbind] in P.
  destruct (join_value _ _); [|discriminate]. cbn [rbind] in P.
  unfold section in P. rewrite S in P. cbn [rbind nth_error] in P.
  injection P as <-.
  match goal with
  | |- context [report_prompt ?a ?b ?c ?d ?e ?f ?g ?h ?i ?j] =>
      destruct (report_prompt_occurs a b c d e f g h i j) as [T [U0 [U1 [U2 U3]]]]
  end.
  rewrite S. split; [exact T|]. split; [reflexivity|].
  repeat constructor; assumption.
Qed.

(** C3, as the specification states it, fails: the prompt built for the tag
    [competition] does not hold the section name "Market Position". *)
Lemma section_name_not_verbatim :
  exists tpl req out w',
    lookup "competition" report_templates = Some tpl
    /\ In "Market Position" (sections tpl)
    /\ generate_enhanced_report Example.writer_runtime pricing_question []
         (fallback pricing_question) (JStr "competition") Example.start = (out, w')
    /\ calls w' = [ChatCall req]
    /\ ~ occurs_in "Market Position" (content req).
Proof.
  eexists. eexists. eexists. eexists.
  split; [reflexivity|]. split; [simpl; tauto|].
  split; [vm_compute; reflexivity|]. split; [reflexivity|].
  intro O. apply occurs_contains in O. vm_compute in O. discriminate O.
Qed.

(** C3 (amended). For every tag of the template table, the prompt that
    [generate_enhanced_report] sends holds the template's title verbatim
    and each of its 4 section names in upper case. *)
Theorem prompt_names_template (R : runtime) (question : string)
    (search_results : list json) (analysis : json) (tag : string) (tpl : template)
    (w w' : world) (out : outcome string) (req : chat_request) :
  lookup tag report_templates = Some tpl ->
  generate_enhanced_report R question search_results analysis (JStr tag) w = (out, w') ->
  calls w' = ChatCall req :: calls w ->
  occurs_in (title tpl) (content req)
  /\ List.length (sections tpl) = 4
  /\ Forall (fun s => occurs_in (upper s) (content req)) (sections tpl).
Proof.
  intros L G C.
  assert (T : (let! general := dict_item report_templates (JStr "general") in
               dict_get report_templates (JStr tag) general) = Ok tpl).
  { unfold dict_item, dict_get. rewrite L.
    set (g := lookup "general" report_templates). vm_compute in g. subst g.
    reflexivity. }
  unfold generate_enhanced_report in G.
  rewrite (bind_lift_ok _ _ T) in G.
  unfold bind, now, lift, call_create, ret in G.
  destruct (search_summary_loop _ _ _ _) as [search_summary|e0];
    [|injection G as _ <-; now elim (not_own_tail _ _ C)].
  destruct (enhanced_report_prompt R tpl _ question analysis search_summary)
    as [prompt|e] eqn:P;
    [|injection G as _ <-; now elim (not_own_tail _ _ C)].
  assert (W : calls w' = ChatCall {| model := "gpt-4"; content := prompt;
                                     temperature := 3 # 10; max_tokens := Some 2000 |}
                         :: calls w).
  { destruct (create R _ _); injection G as _ <-; reflexivity. }
  rewrite W in C. injection C as <-.
  exact (enhanced_report_prompt_names _ _ _ _ _ _ _ _ L P).
Qed.

Lemma prompt_names_template_witness :
  exists req,
    snd (generate_enhanced_report Example.writer_runtime pricing_question []
           (fallback pricing_question) (JStr "competition") Example.start)
      = {| calls := [ChatCall req]; stdout := [] |}
    /\ occurs_in "🏆 Competitive Analysis Report" (content req)
    /\ Forall (fun s => occurs_in s (content req))
         ["MARKET POSITION"; "COMPETITOR STRENGTHS/WEAKNESSES"; "COMPETITIVE GAPS";
          "STRATEGIC RECOMMENDATIONS"].
Proof.
  destruct (generate_enhanced_report Example.writer_runtime pricing_question []
              (fallback pricing_question) (JStr "competition") Example.start)
    as [out w'] eqn:G.
  assert (W : exists req, w' = {| calls := [ChatCall req]; stdout := [] |}).
  { apply (f_equal snd) in G. simpl in G. rewrite <- G. vm_compute. eexists. reflexivity. }
  destruct W as [req ->]. exists req. split; [reflexivity|].
  destruct (prompt_names_template Example.writer_runtime pricing_question []
              (fallback pricing_question) "competition"
              {| title := "🏆 Competitive Analysis Report";
                 sections := ["Market Position"; "Competitor Strengths/Weaknesses";
                              "Competitive Gaps"; "Strategic Recommendations"] |}
              Example.start _ out req eq_refl G eq_refl) as [T [_ F]].
  split; [exact T|].
  apply Forall_cons_iff in F. destruct F as [F0 F].
  apply Forall_cons_iff in F. destruct F as [F1 F].
  apply Forall_cons_iff in F. destruct F as [F2 F].
  apply Forall_cons_iff in F. destruct F as [F3 _].
  repeat constructor; [exact F0 | exact F1 | exact F2 | exact F3].
Defined.

(* ===================================================================== *)
(** ** Failures of the search service *)
(* ===================================================================== *)














(* ===================================================================== *)
(** ** The name of the downloaded file *)
(* ===================================================================== *)

Lemma Forall_append {A} (P : A -> Prop) (l1 l2 : list A) :
  Forall P l1 -> Forall P l2 -> Forall P (l1 ++ l2)%list.
Proof. intros H1 H2. apply Forall_app. split; assumption. Qed.

Lemma source_lines_markdown (R : runtime) (srcs : list json) (P : ui -> Prop) :
  (forall body flag, P (StMarkdown body flag)) -> Forall P (source_lines R srcs).
Proof.
  intro H. unfold source_lines. apply Forall_forall. intros u I.
  apply in_map_iff in I. destruct I as [[i source] [<- _]]. apply H.
Qed.

(** C9. The file name of the download button depends on the question alone:
    it is "amazon_strategy_report_", then the first 30 characters of the
    question with every space replaced by an underscore, then ".md". Every
    download button the handler draws carries that name, and it draws one
    whenever the driver returns a result. For the question about skincare
    brands the name is the transform of its first 30 characters. *)
Theorem download_file_name (R : runtime) (agent : AmazonStrategyAgent) (ready : bool)
    (question depth : string) (w : world) :
  report_file_name question
    = "amazon_strategy_report_" ++ spaces_to_underscores (str_take 30 question) ++ ".md"
  /\ (exists rest, question = str_take 30 question ++ rest)
  /\ str_len (str_take 30 question) = Nat.min 30 (str_len question)
  /\ Forall (fun u => match u with
                      | StDownloadButton _ _ file_name _ =>
                          file_name = report_file_name question
                      | _ => True
                      end)
            (fst (generate_strategy_report R agent ready question depth w))
  /\ (forall r w',
        question <> "" ->
        research_and_analyze R agent question depth w = (Ok r, w') ->
        In (StDownloadButton "📄 Download Report (Markdown)" (report_with_sources R r)
              (report_file_name question) "text/markdown")
           (fst (generate_strategy_report R agent true question depth w)))
  /\ report_file_name skincare_question
     = "amazon_strategy_report_What_is_the_best_ad_strategy_f.md".
Proof.
  split; [|split; [|split; [|split; [|split]]]].
  - unfold report_file_name. now rewrite replace_space.
  - apply str_take_prefix.
  - apply str_take_len.
  - unfold generate_strategy_report.
    destruct (String.eqb question ""); [repeat constructor|].
    destruct ready; simpl negb; cbv iota; [|repeat constructor].
    destruct (research_and_analyze R agent question depth w) as [[r|e] w']; cbn [fst].
    + apply Forall_append; [repeat constructor|].
      unfold result_widgets. apply Forall_append; [repeat constructor|].
      apply Forall_append; [|repeat constructor].
      destruct (sources r); [constructor|].
      constructor; [exact I|]. apply source_lines_markdown. intros; exact I.
    + repeat constructor.
  - intros r w' N H. unfold generate_strategy_report.
    destruct (String.eqb_spec question ""); [contradiction|].
    simpl negb. cbv iota. rewrite H. cbn [fst].
    apply in_or_app. right. unfold result_widgets.
    apply in_or_app. right. apply in_or_app. right. simpl. tauto.
  - vm_compute. reflexivity.
Qed.

Lemma download_file_name_witness :
  exists r w',
    research_and_analyze Example.pricing_runtime Example.agent skincare_question "Deep Dive"
      Example.start = (Ok r, w')
    /\ In (StDownloadButton "📄 Download Report (Markdown)"
             (report_with_sources Example.pricing_runtime r)
             "amazon_strategy_report_What_is_the_best_ad_strategy_f.md" "text/markdown")
          (fst (generate_strategy_report Example.pricing_runtime Example.agent true
                  skincare_question "Deep Dive" Example.start)).
Proof.
  destruct (research_and_analyze Example.pricing_runtime Example.agent skincare_question
              "Deep Dive" Example.start) as [out w'] eqn:Hr.
  assert (O : exists r, out = Ok r).
  { apply (f_equal fst) in Hr. simpl in Hr. rewrite <- Hr.
    vm_compute. eexists. reflexivity. }
  destruct O as [r ->].
  exists r, w'. split; [reflexivity|].
  destruct (download_file_name Example.pricing_runtime Example.agent true skincare_question
              "Deep Dive" Example.start) as [_ [_ [_ [_ [D E]]]]].
  rewrite <- E. apply (D r w'); [discriminate | exact Hr].
Defined.

(* ===================================================================== *)
(** ** Classifications without search terms *)
(* ===================================================================== *)

Lemma occurs_self (x : string) : occurs_in x x.
Proof.
  exists EmptyString, EmptyString. simpl.
  induction x as [|c x IH]; simpl; [reflexivity | now rewrite <- IH].
Qed.

Lemma occurs_cons (x t : string) (c : ascii) : occurs_in x t -> occurs_in x (String c t).
Proof. exact (occurs_skip x (String c EmptyString) t). Qed.

Lemma search_request_holds_query (R : runtime) (self : AmazonStrategyAgent)
    (query c : string) (p : search_params) :
  search_request R self (JStr query) (JStr c) = Ok p -> occurs_in query (q p).
Proof.
  unfold search_request, dict_get, search_queries, format. cbn [rbind lookup].
  repeat match goal with
         | |- context [if ?b then _ else _] => destruct b
         end;
    intro E; injection E as <-; cbn [q];
    repeat first [apply occurs_self | apply occurs_here | apply occurs_skip
                 | apply occurs_cons].
Qed.

(** C10. When the classifier's response decodes to an object without a
    "search_terms" entry, [research_and_analyze] raises [KeyError] for that
    key right after the classifier's call, no fallback is used, and the
    handler shows the error. When the entry is an empty list, the driver
    makes its one search with the question itself as the term. *)
Theorem missing_or_empty_search_terms (R : runtime) (self : AmazonStrategyAgent)
    (question depth : string) (w : world) (body : string) (d : dict) :
  create R (calls w) (classify_request question) = Ok body ->
  json_loads R body = Some (JObj d) ->
  (lookup "search_terms" d = None ->
   research_and_analyze R self question depth w
     = (Raise (KeyError (JStr "search_terms")),
        after (ChatCall (classify_request question)) w)
   /\ (question <> "" ->
       generate_strategy_report R self true question depth w
         = ((progress_widgets ++ error_widgets R (KeyError (JStr "search_terms")))%list,
            after (ChatCall (classify_request question)) w)))
  /\ (lookup "search_terms" d = Some (JArr []) ->
      forall out w',
        research_and_analyze R self question depth w = (out, w') ->
        exists c p,
          In c valid_categories
          /\ search_request R self (JStr question) (JStr c) = Ok p
          /\ occurs_in question (q p)
          /\ search_calls (calls w') = p :: search_calls (calls w)).
Proof.
  intros C L.
  pose proof (analyze_strategy_question_run R question w) as A.
  rewrite C, L in A.
  set (a := if recognised (JObj d) then JObj d
            else JObj (store "category" (JStr "general") d)) in A.
  assert (T : item a "search_terms"
              = match lookup "search_terms" d with
                | Some x => Ok x
                | None => Raise (KeyError (JStr "search_terms"))
                end).
  { unfold a. destruct (recognised (JObj d)); [reflexivity|].
    unfold item. rewrite lookup_store_other; [reflexivity | discriminate]. }
  split.
  - intro N. rewrite N in T.
    assert (D : research_and_analyze R self question depth w
                = (Raise (KeyError (JStr "search_terms")),
                   after (ChatCall (classify_request question)) w)).
    { unfold research_and_analyze. rewrite (bind_ok _ A).
      now rewrite (bind_lift_raise _ _ T). }
    split; [exact D|].
    intro Q. unfold generate_strategy_report.
    destruct (String.eqb_spec question ""); [contradiction|].
    simpl negb. cbv iota. now rewrite D.
  - intros E out w' Hr. rewrite E in T.
    destruct (analyze_category A) as [c [Hc V]].
    destruct (research_and_analyze_searches A T Hc Hr)
      as [p1 [p2 [p3 [l1 [l2 [l3 [Ep [K _]]]]]]]].
    exists c, p1. split; [exact V|]. split; [exact Ep|].
    split; [exact (search_request_holds_query _ _ _ _ _ Ep)|].
    rewrite K. simpl. now rewrite !andb_false_r.
Qed.

Lemma missing_or_empty_search_terms_witness :
  (research_and_analyze Example.no_terms_runtime Example.agent pricing_question "Deep Dive"
     Example.start
     = (Raise (KeyError (JStr "search_terms")),
        after (ChatCall (classify_request pricing_question)) Example.start)
   /\ generate_strategy_report Example.no_terms_runtime Example.agent true pricing_question
        "Deep Dive" Example.start
      = ((progress_widgets
            ++ error_widgets Example.no_terms_runtime (KeyError (JStr "search_terms")))%list,
         after (ChatCall (classify_request pricing_question)) Example.start))
  /\ exists c p,
       In c valid_categories
       /\ search_request Example.empty_terms_runtime Example.agent (JStr pricing_question)
            (JStr c) = Ok p
       /\ search_calls
            (calls (snd (research_and_analyze Example.empty_terms_runtime Example.agent
                           pricing_question "Deep Dive" Example.start)))
          = [p].
Proof.
  split.
  - destruct (missing_or_empty_search_terms Example.no_terms_runtime Example.agent
                pricing_question "Deep Dive" Example.start Example.no_terms_body
                [("category", JStr "pricing")]) as [N _].
    + reflexivity.
    + vm_compute. reflexivity.
    + destruct (N eq_refl) as [D H]. split; [exact D|]. apply H. discriminate.
  - destruct (missing_or_empty_search_terms Example.empty_terms_runtime Example.agent
                pricing_question "Deep Dive" Example.start
                (Example.classification "pricing" [])
                [ ("category", JStr "pricing");
                  ("search_terms", JArr []);
                  ("focus_areas", JArr [JStr "pricing"; JStr "margins"]);
                  ("analysis_type", JStr "pricing analysis");
                  ("key_questions", JArr [JStr "What do rivals charge?"]) ]) as [_ E].
    + reflexivity.
    + vm_compute. reflexivity.
    + destruct (research_and_analyze Example.empty_terms_runtime Example.agent
                  pricing_question "Deep Dive" Example.start) as [out w'] eqn:Hr.
      destruct (E eq_refl out w' eq_refl) as [c [p [V [Ep [_ K]]]]].
      exists c, p. split; [exact V|]. split; [exact Ep|]. exact K.
Defined.

(* ===================================================================== *)
(** ** More on the searcher *)
(* ===================================================================== *)

Lemma normalize_object (d : dict) : normalize (JObj d) = Ok (search_result_of d).
Proof. reflexivity. Qed.

Lemma normalize_other (v : json) :
  (forall d, v <> JObj d) -> normalize v = Raise AttributeError.
Proof. intro N. destruct v; try reflexivity. now elim (N d). Qed.

Lemma search_result_of_is_result (d : dict) : is_search_result (search_result_of d).
Proof. unfold is_search_result, search_result_of. eauto 6. Qed.

Lemma rmap_normalize_objects (ds : list dict) :
  rmap normalize (map JObj ds) = Ok (map search_result_of ds).
Proof.
  induction ds as [|d ds IH]; [reflexivity|].
  simpl map. cbn [rmap]. rewrite normalize_object. cbn [rbind]. now rewrite IH.
Qed.

Lemma rmap_normalize_other (items : list json) (v : json) :
  In v items -> (forall d, v <> JObj d) -> rmap normalize items = Raise AttributeError.
Proof.
  intros I N. induction items as [|x items IH]; [contradiction|].
  cbn [rmap]. destruct I as [-> | I].
  - now rewrite (normalize_other _ N).
  - destruct x; cbn [normalize get rbind]; try reflexivity.
    now rewrite (IH I).
Qed.

Lemma rmap_normalize_ok (items l : list json) :
  rmap normalize items = Ok l ->
  exists ds, items = map JObj ds /\ l = map search_result_of ds.
Proof.
  revert l. induction items as [|x items IH]; intros l E.
  - exists []. cbn in E. injection E as <-. split; reflexivity.
  - cbn [rmap] in E. destruct x; try discriminate E.
    rewrite normalize_object in E. cbn [rbind] in E.
    destruct (rmap normalize items) as [l'|e]; [|discriminate E].
    cbn [rbind] in E. injection E as <-.
    destruct (IH l' eq_refl) as [ds [-> ->]].
    exists (d :: ds). split; reflexivity.
Qed.

(** What [search_amazon_data] returns, by the answer of the search service,
    when its search type is a [str]. *)
Lemma search_amazon_data_value (R : runtime) (self : AmazonStrategyAgent) (query : json)
    (tag : string) (p : search_params) (w : world) :
  search_request R self query (JStr tag) = Ok p ->
  fst (search_amazon_data R self query (JStr tag) w)
  = Ok match get_dict R (calls w) p with
       | Ok results =>
           match lookup "organic_results" results with
           | Some organic =>
               match (let! top := slice_to 6 organic in
                      let! items := iterate top in
                      rmap normalize items) with
               | Ok l => l
               | Raise _ => []
               end
           | None => []
           end
       | Raise _ => []
       end.
Proof.
  intro E. unfold search_amazon_data. rewrite (bind_lift_ok _ _ E).
  unfold try_except, bind, call_get_dict, print, ret, lift.
  destruct (get_dict R (calls w) p) as [results|e]; [|reflexivity].
  destruct (lookup "organic_results" results) as [organic|]; [|reflexivity].
  destruct (slice_to 6 organic) as [top|e1]; [|reflexivity]. cbn [rbind].
  destruct (iterate top) as [items|e2]; [|reflexivity]. cbn [rbind].
  destruct (rmap normalize items) as [l|e3]; reflexivity.
Qed.

Lemma chars_not_objects (s : string) (ds : list dict) :
  map JStr (chars s) = map JObj ds -> ds = [].
Proof.
  destruct ds as [|d ds]; [reflexivity|].
  destruct (chars s); simpl; intro E; discriminate E.
Qed.

Lemma search_amazon_data_records (R : runtime) (self : AmazonStrategyAgent)
    (query : json) (tag : string) (w : world) :
  exists l w',
    search_amazon_data R self query (JStr tag) w = (Ok l, w')
    /\ List.length l <= 6
    /\ Forall is_search_result l.
Proof.
  destruct (search_request_tag R self query tag) as [p Ep].
  destruct (search_amazon_data_run R self _ _ _ w Ep) as [l [out [E _]]].
  exists l. eexists. split; [exact E|].
  pose proof (search_amazon_data_value R self query tag p w Ep) as V.
  rewrite E in V. cbn [fst] in V. injection V as V.
  assert (Z : List.length (@nil json) <= 6 /\ Forall is_search_result (@nil json))
    by (split; [simpl; lia | constructor]).
  destruct (get_dict R (calls w) p) as [results|e]; [|now subst l].
  destruct (lookup "organic_results" results) as [organic|]; [|now subst l].
  destruct (slice_to 6 organic) as [top|e1] eqn:S; [|now subst l]. cbn [rbind] in V.
  destruct (iterate top) as [items|e2] eqn:I; [|now subst l]. cbn [rbind] in V.
  destruct (rmap normalize items) as [l'|e3] eqn:N; [|now subst l]. subst l'.
  destruct (rmap_normalize_ok _ _ N) as [ds [Ei ->]].
  split.
  - destruct organic; try discriminate S.
    + assert (T : top = JStr (str_take 6 s)) by (unfold slice_to in S; congruence).
      subst top.
      assert (J : items = map JStr (chars (str_take 6 s)))
        by (unfold iterate in I; congruence).
      rewrite J in Ei. apply chars_not_objects in Ei. subst ds. simpl. lia.
    + assert (T : top = JArr (firstn 6 l)) by (unfold slice_to in S; congruence).
      subst top.
      assert (J : items = firstn 6 l) by (unfold iterate in I; congruence).
      rewrite length_map, <- (length_map JObj), <- Ei, J. apply firstn_le_length.
  - apply Forall_forall. intros x Hx. apply in_map_iff in Hx.
    destruct Hx as [d [<- _]]. apply search_result_of_is_result.
Qed.

(** X1. With a [str] as its search type, [search_amazon_data] always
    returns a list, of at most 6 records, each with exactly the entries
    title, snippet, link and source in this order. *)
Theorem search_results_are_records (R : runtime) (self : AmazonStrategyAgent)
    (query : json) (tag : string) (w : world) :
  exists l w',
    search_amazon_data R self query (JStr tag) w = (Ok l, w')
    /\ List.length l <= 6
    /\ Forall is_search_result l.
Proof. exact (search_amazon_data_records R self query tag w). Qed.

(** X2. The searcher keeps all or nothing of a response. When the first six
    organic results are all dicts, it returns their records in order:
    missing entries become the empty string and the source is the
    displayed link when there is one. When one of the first six is not a
    dict, it returns the empty list, and results beyond the sixth are
    never looked at. A response without organic results gives the empty
    list. *)
Theorem search_keeps_all_or_nothing (R : runtime) (self : AmazonStrategyAgent)
    (query : json) (tag : string) (p : search_params) (w : world) (results : dict) :
  search_request R self query (JStr tag) = Ok p ->
  get_dict R (calls w) p = Ok results ->
  (lookup "organic_results" results = None ->
   fst (search_amazon_data R self query (JStr tag) w) = Ok [])
  /\ forall items,
       lookup "organic_results" results = Some (JArr items) ->
       (forall ds, firstn 6 items = map JObj ds ->
                   fst (search_amazon_data R self query (JStr tag) w)
                   = Ok (map search_result_of ds))
       /\ (forall v, In v (firstn 6 items) -> (forall d, v <> JObj d) ->
                     fst (search_amazon_data R self query (JStr tag) w) = Ok []).
Proof.
  intros Ep Eg.
  rewrite (search_amazon_data_value R self query tag p w Ep), Eg.
  split; [intros ->; reflexivity|].
  intros items ->. cbn [slice_to iterate rbind]. split.
  - intros ds ->. now rewrite rmap_normalize_objects.
  - intros v I N. now rewrite (rmap_normalize_other _ _ I N).
Qed.

Lemma search_keeps_all_or_nothing_witness :
  fst (search_amazon_data Example.pricing_runtime Example.agent (JStr "eco-friendly pricing")
         (JStr "pricing") Example.start)
  = Ok (map search_result_of
          [ [ ("title", JStr "Result 1"); ("snippet", JStr "Snippet 1");
              ("link", JStr "https://example.com/1"); ("displayed_link", JStr "example.com") ];
            [ ("title", JStr "Result 2"); ("snippet", JStr "Snippet 2");
              ("link", JStr "https://example.com/2"); ("displayed_link", JStr "example.com") ];
            [ ("title", JStr "Result 3"); ("snippet", JStr "Snippet 3");
              ("link", JStr "https://example.com/3"); ("displayed_link", JStr "example.com") ];
            [ ("title", JStr "Result 4"); ("snippet", JStr "Snippet 4");
              ("link", JStr "https://example.com/4"); ("displayed_link", JStr "example.com") ];
            [ ("title", JStr "Result 5"); ("snippet", JStr "Snippet 5");
              ("link", JStr "https://example.com/5"); ("displayed_link", JStr "example.com") ];
            [ ("title", JStr "Result 6"); ("snippet", JStr "Snippet 6");
              ("link", JStr "https://example.com/6"); ("displayed_link", JStr "example.com") ] ]).
Proof.
  destruct (search_keeps_all_or_nothing Example.pricing_runtime Example.agent
              (JStr "eco-friendly pricing") "pricing"
              {| q := "Amazon pricing strategy eco-friendly pricing market";
                 api_key := "serp-test"; num := 8; hl := "en"; gl := "us" |}
              Example.start (Example.response 8) eq_refl eq_refl) as [_ H].
  destruct (H (map Example.organic (seq 1 8)) eq_refl) as [A _].
  apply A. reflexivity.
Defined.

(** X3. Every search is an Amazon search for the term: for any term and
    any [str] search type the query starts with "Amazon " and holds the
    formatted term, it asks for 8 results in English for the US with the
    agent's key, and for a search type outside the six tags the query is
    just "Amazon " followed by the term. *)
Theorem search_query_shape (R : runtime) (self : AmazonStrategyAgent) (query : json)
    (tag : string) :
  exists p,
    search_request R self query (JStr tag) = Ok p
    /\ (exists rest, q p = "Amazon " ++ rest)
    /\ occurs_in (format R query) (q p)
    /\ api_key p = serpapi_key self /\ num p = 8 /\ hl p = "en" /\ gl p = "us"
    /\ (~ In tag valid_categories -> q p = "Amazon " ++ format R query).
Proof.
  unfold search_request, dict_get, search_queries. cbn [rbind lookup].
  eexists. split; [reflexivity|]. cbn [q api_key num hl gl].
  repeat match goal with
         | |- context [String.eqb tag ?k] => destruct (String.eqb_spec tag k)
         end;
    (split; [eexists; reflexivity|]);
    (split; [repeat first [apply occurs_self | apply occurs_here | apply occurs_skip
                          | apply occurs_cons]|]);
    repeat (split; [reflexivity|]);
    intro N; try reflexivity; exfalso; apply N; subst tag; simpl; tauto.
Qed.

Lemma search_query_shape_witness :
  exists p,
    search_request Example.pricing_runtime Example.agent (JStr "kindle covers")
      (JStr "logistics") = Ok p
    /\ q p = "Amazon kindle covers".
Proof.
  destruct (search_query_shape Example.pricing_runtime Example.agent (JStr "kindle covers")
              "logistics") as [p [E [_ [_ [_ [_ [_ [_ D]]]]]]]].
  exists p. split; [exact E|]. apply D.
  simpl. intros [H|[H|[H|[H|[H|[H|H]]]]]]; try discriminate H. exact H.
Defined.

(* ===================================================================== *)
(** ** More on the classifier and the synthesizer *)
(* ===================================================================== *)

(** X4. Once the LLM has answered, [analyze_strategy_question] never
    raises: it returns a dict after that single call and prints nothing,
    whatever the text of the answer; and a decoded classification whose
    category is one of the six tags is returned as decoded. *)
Theorem classifier_recovers (R : runtime) (question : string) (w : world) (body : string) :
  create R (calls w) (classify_request question) = Ok body ->
  (exists d,
     analyze_strategy_question R question w
     = (Ok (JObj d), after (ChatCall (classify_request question)) w))
  /\ forall v,
       json_loads R body = Some v -> recognised v = true ->
       analyze_strategy_question R question w
       = (Ok v, after (ChatCall (classify_request question)) w).
Proof.
  intro C. rewrite analyze_strategy_question_run, C. split.
  - destruct (json_loads R body) as [v|]; [|eexists; reflexivity].
    destruct v; try (eexists; reflexivity).
    destruct (recognised (JObj d)); eexists; reflexivity.
  - intros v -> Rec. destruct v; try discriminate Rec. now rewrite Rec.
Qed.

Lemma classifier_recovers_witness :
  analyze_strategy_question Example.pricing_runtime pricing_question Example.start
  = (Ok (JObj [ ("category", JStr "pricing");
                ("search_terms",
                 JArr [JStr "eco-friendly pricing"; JStr "Amazon pricing trends"]);
                ("focus_areas", JArr [JStr "pricing"; JStr "margins"]);
                ("analysis_type", JStr "pricing analysis");
                ("key_questions", JArr [JStr "What do rivals charge?"]) ]),
     after (ChatCall (classify_request pricing_question)) Example.start).
Proof.
  destruct (classifier_recovers Example.pricing_runtime pricing_question Example.start
              (Example.classification "pricing"
                 ["eco-friendly pricing"; "Amazon pricing trends"]) eq_refl) as [_ H].
  apply H; vm_compute; reflexivity.
Defined.

(** X5. For a template type that is not a key of the table,
    [generate_enhanced_report] uses the general template: the prompt it
    sends holds the title "Amazon Strategy Analysis" with its emoji and the
    four general section names in upper case. *)
Theorem unknown_template_is_general (R : runtime) (question : string)
    (search_results : list json) (analysis : json) (tag : string)
    (w w' : world) (out : outcome string) (req : chat_request) :
  lookup tag report_templates = None ->
  generate_enhanced_report R question search_results analysis (JStr tag) w = (out, w') ->
  calls w' = ChatCall req :: calls w ->
  occurs_in "📊 Amazon Strategy Analysis" (content req)
  /\ Forall (fun s => occurs_in s (content req))
       ["MARKET OVERVIEW"; "KEY INSIGHTS"; "STRATEGIC OPPORTUNITIES"; "ACTION PLAN"].
Proof.
  intros L G C.
  set (general := {| title := "📊 Amazon Strategy Analysis";
                     sections := ["Market Overview"; "Key Insights";
                                  "Strategic Opportunities"; "Action Plan"] |}).
  assert (T : (let! general := dict_item report_templates (JStr "general") in
               dict_get report_templates (JStr tag) general) = Ok general).
  { unfold dict_item, dict_get. rewrite L.
    set (g := lookup "general" report_templates). vm_compute in g. subst g.
    reflexivity. }
  unfold generate_enhanced_report in G.
  rewrite (bind_lift_ok _ _ T) in G.
  unfold bind, now, lift, call_create, ret in G.
  destruct (search_summary_loop _ _ _ _) as [search_summary|e0];
    [|injection G as _ <-; now elim (not_own_tail _ _ C)].
  destruct (enhanced_report_prompt R general _ question analysis search_summary)
    as [prompt|e] eqn:P;
    [|injection G as _ <-; now elim (not_own_tail _ _ C)].
  assert (W : calls w' = ChatCall {| model := "gpt-4"; content := prompt;
                                     temperature := 3 # 10; max_tokens := Some 2000 |}
                         :: calls w).
  { destruct (create R _ _); injection G as _ <-; reflexivity. }
  rewrite W in C. injection C as <-.
  destruct (enhanced_report_prompt_names R question analysis "general" general _ _ _
              eq_refl P) as [Ti [_ F]].
  split; [exact Ti|].
  apply Forall_cons_iff in F. destruct F as [F0 F].
  apply Forall_cons_iff in F. destruct F as [F1 F].
  apply Forall_cons_iff in F. destruct F as [F2 F].
  apply Forall_cons_iff in F. destruct F as [F3 _].
  repeat constructor; [exact F0 | exact F1 | exact F2 | exact F3].
Qed.

Lemma unknown_template_is_general_witness :
  exists req,
    snd (generate_enhanced_report Example.writer_runtime pricing_question []
           (fallback pricing_question) (JStr "logistics") Example.start)
      = {| calls := [ChatCall req]; stdout := [] |}
    /\ occurs_in "📊 Amazon Strategy Analysis" (content req)
    /\ occurs_in "ACTION PLAN" (content req).
Proof.
  destruct (generate_enhanced_report Example.writer_runtime pricing_question []
              (fallback pricing_question) (JStr "logistics") Example.start)
    as [out w'] eqn:G.
  assert (W : exists req, w' = {| calls := [ChatCall req]; stdout := [] |}).
  { apply (f_equal snd) in G. simpl in G. rewrite <- G. vm_compute. eexists. reflexivity. }
  destruct W as [req ->]. exists req. split; [reflexivity|].
  destruct (unknown_template_is_general Example.writer_runtime pricing_question []
              (fallback pricing_question) "logistics" Example.start _ out req
              eq_refl G eq_refl) as [T F].
  split; [exact T|].
  apply Forall_cons_iff in F. destruct F as [_ F].
  apply Forall_cons_iff in F. destruct F as [_ F].
  apply Forall_cons_iff in F. destruct F as [_ F].
  apply Forall_cons_iff in F. destruct F as [F3 _]. exact F3.
Defined.

Lemma append_empty_r (s : string) : s ++ "" = s.
Proof. induction s as [|c s IH]; simpl; [reflexivity | now rewrite IH]. Qed.

Lemma search_summary_loop_blocks (R : runtime) (l : list json) :
  Forall is_search_result l ->
  forall acc i,
    search_summary_loop R acc i l
    = Ok (acc ++ fold_right String.append ""
                   (map (fun '(k, r) => summary_block R k r) (enumerate i l))).
Proof.
  induction 1 as [|r l [t [s [k [src ->]]]] _ IH]; intros acc i.
  - simpl. now rewrite append_empty_r.
  - cbn [search_summary_loop item lookup String.eqb Ascii.eqb Bool.eqb rbind].
    cbn [enumerate map fold_right summary_block field lookup String.eqb Ascii.eqb Bool.eqb].
    destruct (truthy s).
    + cbn [rbind]. rewrite IH. now rewrite !append_assoc.
    + rewrite IH. reflexivity.
Qed.



Lemma rmap_as_str_other (items : list json) (v : json) :
  In v items -> (forall s, v <> JStr s) -> rmap as_str items = Raise TypeError.
Proof.
  intros I N. induction items as [|x items IH]; [contradiction|].
  cbn [rmap]. destruct I as [-> | I].
  - destruct v; try reflexivity. now elim (N s).
  - destruct x; try reflexivity. cbn [as_str rbind]. now rewrite (IH I).
Qed.

Lemma Forall_firstn {A} (P : A -> Prop) (n : nat) (l : list A) :
  Forall P l -> Forall P (firstn n l).
Proof.
  intro F. revert n. induction F as [|x l Hx _ IH]; intro n.
  - destruct n; constructor.
  - destruct n; constructor; [exact Hx | apply IH].
Qed.

(** A focus area that is not a [str] makes the synthesizer raise before it
    calls the LLM. *)
Lemma generate_enhanced_report_bad_focus (R : runtime) (question : string)
    (search_results : list json) (analysis : json) (tag : string) (fa : list json)
    (v : json) (w : world) :
  Forall is_search_result search_results ->
  get analysis "focus_areas" (JArr []) = Ok (JArr fa) ->
  In v fa -> (forall s, v <> JStr s) ->
  generate_enhanced_report R question search_results analysis (JStr tag) w
  = (Raise TypeError, w).
Proof.
  intros F G I N. unfold generate_enhanced_report.
  assert (T : exists tpl, (let! general := dict_item report_templates (JStr "general") in
                           dict_get report_templates (JStr tag) general) = Ok tpl).
  { unfold dict_item, dict_get.
    set (g := lookup "general" report_templates). vm_compute in g. subst g.
    cbn [rbind]. eauto. }
  destruct T as [tpl T]. rewrite (bind_lift_ok _ _ T).
  rewrite (bind_lift_ok _ _ (search_summary_loop_blocks R _ (Forall_firstn _ 4 _ F) "" 1)).
  unfold bind at 1. unfold now at 1.
  apply bind_lift_raise.
  unfold enhanced_report_prompt.
  assert (A : exists x, get analysis "analysis_type" (JStr "Strategic analysis") = Ok x).
  { destruct analysis; try discriminate G. simpl. eauto. }
  destruct A as [x ->]. cbn [rbind]. rewrite G. cbn [rbind].
  unfold join_value. cbn [iterate rbind]. now rewrite (rmap_as_str_other _ _ I N).
Qed.

(* ===================================================================== *)
(** ** More on the driver *)
(* ===================================================================== *)

Lemma search_amazon_data_result_records {R : runtime} {self : AmazonStrategyAgent}
    {query : json} {tag : string} {w w' : world} {l : list json} :
  search_amazon_data R self query (JStr tag) w = (Ok l, w') -> Forall is_search_result l.
Proof.
  intro E. destruct (search_amazon_data_records R self query tag w) as [l0 [w0 [E0 [_ F]]]].
  rewrite E in E0. now injection E0 as <- _.
Qed.

Lemma chat_calls_search (p : search_params) (t : trace) :
  chat_calls (SearchCall p :: t) = chat_calls t.
Proof. reflexivity. Qed.

(** What the searches of a run gather, after a classification whose search
    terms are a list: records, and no LLM call on the way. *)
Lemma research_and_analyze_gathers {R : runtime} {self : AmazonStrategyAgent}
    {question depth : string} {w w1 : world} {a : json} {terms : list json} {c : string} :
  analyze_strategy_question R question w = (Ok a, w1) ->
  item a "search_terms" = Ok (JArr terms) ->
  item a "category" = Ok (JStr c) ->
  exists all w4,
    Forall is_search_result all
    /\ chat_calls (calls w4) = classify_request question :: chat_calls (calls w)
    /\ (exists p rest, search_calls (calls w4) = (rest ++ p :: search_calls (calls w))%list)
    /\ research_and_analyze R self question depth w =
       (report <- generate_enhanced_report R question all a (JStr c) ;;
        sources <- lift (links all) ;;
        used <- lift (dict_item report_templates (JStr c)) ;;
        ret {| question := question;
               analysis := a;
               search_results := all;
               report := report;
               sources := sources;
               report_type := JStr c;
               template_used := title used |}) w4.
Proof.
  intros Ha Ht Hc.
  destruct (research_and_analyze_run R self question depth Ha Ht Hc)
    as [l1 [l2 [l3 [w2 [w3 [w4 [E1 [D2 [D3 E]]]]]]]]].
  exists (firstn 3 l1 ++ firstn 2 l2 ++ firstn 2 l3)%list, w4.
  destruct (search_request_tag R self (hd (JStr question) terms) c) as [p1 Ep1].
  destruct (search_request_tag R self (nth 1 terms JNull) "general") as [p2 Ep2].
  destruct (search_request_tag R self (nth 2 terms JNull) c) as [p3 Ep3].
  pose proof (search_amazon_data_calls Ep1 E1) as K1.
  pose proof (analyze_strategy_question_calls Ha) as K0.
  pose proof (search_amazon_data_result_records E1) as F1.
  assert (S2 : Forall is_search_result l2
               /\ exists n2, calls w3 = (n2 ++ calls w2)%list /\ chat_calls n2 = []).
  { destruct ((3 <=? num_searches depth) && (1 <? List.length terms)).
    - split; [exact (search_amazon_data_result_records D2)|].
      exists [SearchCall p2]. split; [exact (search_amazon_data_calls Ep2 D2) | reflexivity].
    - destruct D2 as [-> ->]. split; [constructor|]. exists []. split; reflexivity. }
  assert (S3 : Forall is_search_result l3
               /\ exists n3, calls w4 = (n3 ++ calls w3)%list /\ chat_calls n3 = []).
  { destruct ((4 <=? num_searches depth) && (2 <? List.length terms)).
    - split; [exact (search_amazon_data_result_records D3)|].
      exists [SearchCall p3]. split; [exact (search_amazon_data_calls Ep3 D3) | reflexivity].
    - destruct D3 as [-> ->]. split; [constructor|]. exists []. split; reflexivity. }
  destruct S2 as [F2 [n2 [K2 C2]]]. destruct S3 as [F3 [n3 [K3 C3]]].
  split; [|split; [|split; [|exact E]]].
  - repeat apply Forall_append; apply Forall_firstn; assumption.
  - rewrite K3, K2, K1, K0. unfold chat_calls at 1.
    rewrite !flat_map_app. fold (chat_calls n3). fold (chat_calls n2).
    rewrite C2, C3. reflexivity.
  - exists p1, (search_calls n3 ++ search_calls n2)%list.
    rewrite K3, K2, K1, K0. unfold search_calls at 1.
    rewrite !flat_map_app. fold (search_calls n3). fold (search_calls n2).
    now rewrite <- app_assoc.
Qed.

(** X7. A classification whose focus areas hold a value that is not a
    [str] makes the request fail late: the driver makes its searches,
    then raises [TypeError] while it builds the prompt, without a second
    call to the LLM. *)
Theorem focus_area_not_str_fails_late (R : runtime) (self : AmazonStrategyAgent)
    (question depth : string) (w w1 : world) (a : json) (terms fa : list json) (v : json) :
  analyze_strategy_question R question w = (Ok a, w1) ->
  item a "search_terms" = Ok (JArr terms) ->
  get a "focus_areas" (JArr []) = Ok (JArr fa) ->
  In v fa -> (forall s, v <> JStr s) ->
  exists w',
    research_and_analyze R self question depth w = (Raise TypeError, w')
    /\ chat_calls (calls w') = classify_request question :: chat_calls (calls w)
    /\ exists p rest, search_calls (calls w') = (rest ++ p :: search_calls (calls w))%list.
Proof.
  intros Ha Ht Hf I N.
  destruct (analyze_category Ha) as [c [Hc _]].
  destruct (research_and_analyze_gathers (self := self) (depth := depth) Ha Ht Hc)
    as [all [w4 [F [C [S E]]]]].
  exists w4. split; [|split; [exact C | exact S]].
  rewrite E.
  now rewrite (bind_raise _ (generate_enhanced_report_bad_focus R question all a c fa v w4
                               F Hf I N)).
Qed.

Lemma calls_split (t : trace) :
  List.length t = List.length (chat_calls t) + List.length (search_calls t).
Proof.
  induction t as [|c t IH]; [reflexivity|].
  destruct c; simpl; lia.
Qed.

Lemma calls_within_pure {A} (chat search : nat) (m : M A) :
  (forall w, snd (m w) = w) -> calls_within chat search m.
Proof.
  intros P w o w' E. exists []. pose proof (P w) as Q. rewrite E in Q. simpl in Q.
  subst w'. split; [reflexivity|]. simpl. split; lia.
Qed.

Lemma calls_within_ret {A} (chat search : nat) (a : A) : calls_within chat search (ret a).
Proof. apply calls_within_pure. reflexivity. Qed.

Lemma calls_within_lift {A} (chat search : nat) (r : outcome A) :
  calls_within chat search (lift r).
Proof. apply calls_within_pure. reflexivity. Qed.

Lemma calls_within_now (R : runtime) (chat search : nat) : calls_within chat search (now R).
Proof. apply calls_within_pure. reflexivity. Qed.

Lemma calls_within_print (chat search : nat) (line : string) :
  calls_within chat search (print line).
Proof.
  intros w o w' E. exists []. unfold print in E. injection E as _ <-.
  split; [reflexivity|]. simpl. split; lia.
Qed.

Lemma calls_within_create (R : runtime) (search : nat) (r : chat_request) :
  calls_within 1 search (call_create R r).
Proof.
  intros w o w' E. exists [ChatCall r]. unfold call_create in E. injection E as _ <-.
  split; [reflexivity|]. simpl. split; lia.
Qed.

Lemma calls_within_get_dict (R : runtime) (chat : nat) (p : search_params) :
  calls_within chat 1 (call_get_dict R p).
Proof.
  intros w o w' E. exists [SearchCall p]. unfold call_get_dict in E. injection E as _ <-.
  split; [reflexivity|]. simpl. split; lia.
Qed.

Lemma calls_within_bind {A B} (c1 s1 c2 s2 : nat) (m : M A) (k : A -> M B) :
  calls_within c1 s1 m -> (forall a, calls_within c2 s2 (k a)) ->
  calls_within (c1 + c2) (s1 + s2) (bind m k).
Proof.
  intros Hm Hk w o w' E. unfold bind in E.
  destruct (m w) as [[a|e] w1] eqn:Em.
  - destruct (Hm _ _ _ Em) as [n1 [K1 [C1 S1]]].
    destruct (Hk a _ _ _ E) as [n2 [K2 [C2 S2]]].
    exists (n2 ++ n1)%list. rewrite K2, K1, app_assoc. split; [reflexivity|].
    unfold chat_calls, search_calls. rewrite !flat_map_app, !length_app.
    fold (chat_calls n1) (chat_calls n2) (search_calls n1) (search_calls n2). lia.
  - injection E as <- <-.
    destruct (Hm _ _ _ Em) as [n1 [K1 [C1 S1]]].
    exists n1. split; [exact K1|]. lia.
Qed.

Lemma calls_within_try_except {A} (c1 s1 c2 s2 : nat) (body : M A)
    (handler : exn -> M A) :
  calls_within c1 s1 body -> (forall e, calls_within c2 s2 (handler e)) ->
  calls_within (c1 + c2) (s1 + s2) (try_except body handler).
Proof.
  intros Hb Hh w o w' E. unfold try_except in E.
  destruct (body w) as [[a|e] w1] eqn:Eb.
  - injection E as <- <-.
    destruct (Hb _ _ _ Eb) as [n1 [K1 [C1 S1]]].
    exists n1. split; [exact K1|]. lia.
  - destruct (Hb _ _ _ Eb) as [n1 [K1 [C1 S1]]].
    destruct (Hh e _ _ _ E) as [n2 [K2 [C2 S2]]].
    exists (n2 ++ n1)%list. rewrite K2, K1, app_assoc. split; [reflexivity|].
    unfold chat_calls, search_calls. rewrite !flat_map_app, !length_app.
    fold (chat_calls n1) (chat_calls n2) (search_calls n1) (search_calls n2). lia.
Qed.

Lemma calls_within_analyze (R : runtime) (search : nat) (question : string) :
  calls_within 1 search (analyze_strategy_question R question).
Proof.
  intros w o w' E. rewrite (analyze_strategy_question_calls E).
  exists [ChatCall (classify_request question)]. split; [reflexivity|]. simpl. split; lia.
Qed.

Lemma calls_within_search (R : runtime) (self : AmazonStrategyAgent) (chat : nat)
    (query search_type : json) :
  calls_within chat 1 (search_amazon_data R self query search_type).
Proof.
  unfold search_amazon_data.
  apply (calls_within_bind 0 0 chat 1); [apply calls_within_lift|]. intro params.
  apply (calls_within_try_except 0 1 chat 0).
  - apply (calls_within_bind 0 1 0 0); [apply calls_within_get_dict|]. intro results.
    destruct (lookup "organic_results" results); [|apply calls_within_ret].
    apply (calls_within_bind 0 0 0 0); [apply calls_within_lift|]. intro top.
    apply (calls_within_bind 0 0 0 0); [apply calls_within_lift|]. intro items.
    apply calls_within_lift.
  - intro e. apply (calls_within_bind 0 0 chat 0); [apply calls_within_print|]. intro u.
    apply calls_within_ret.
Qed.

Lemma calls_within_generate (R : runtime) (search : nat) (question : string)
    (search_results : list json) (analysis template_type : json) :
  calls_within 1 search
    (generate_enhanced_report R question search_results analysis template_type).
Proof.
  unfold generate_enhanced_report.
  apply (calls_within_bind 0 0 1 search); [apply calls_within_lift|]. intro template.
  apply (calls_within_bind 0 0 1 search); [apply calls_within_lift|]. intro summary.
  apply (calls_within_bind 0 0 1 search); [apply calls_within_now|]. intro date.
  apply (calls_within_bind 0 0 1 search); [apply calls_within_lift|]. intro prompt.
  apply (calls_within_bind 1 0 0 search); [apply calls_within_create|]. intro response.
  apply calls_within_ret.
Qed.

Lemma bind_cases {A B} {m : M A} {k : A -> M B} {w w' : world} {o : outcome B} :
  bind m k w = (o, w') ->
  (exists e, m w = (Raise e, w') /\ o = Raise e)
  \/ (exists a w1, m w = (Ok a, w1) /\ k a w1 = (o, w')).
Proof.
  unfold bind. destruct (m w) as [[a|e] w1]; intro E.
  - right. exists a, w1. auto.
  - left. injection E as <- <-. exists e. auto.
Qed.

(** X8. Whatever happens, a request makes at most 5 remote calls on top of
    the earlier ones: at most 2 to the LLM and at most 3 searches, and the
    first of them is the classifier's call. *)
Theorem research_call_budget (R : runtime) (self : AmazonStrategyAgent)
    (question depth : string) (w w' : world) (out : outcome ResearchResult) :
  research_and_analyze R self question depth w = (out, w') ->
  exists new,
    calls w' = (new ++ calls w)%list
    /\ List.length (chat_calls new) <= 2
    /\ List.length (search_calls new) <= 3
    /\ List.length new <= 5
    /\ exists later, new = (later ++ [ChatCall (classify_request question)])%list.
Proof.
  intro H. unfold research_and_analyze in H.
  assert (G : exists new,
             calls w' = (new ++ calls w)%list
             /\ List.length (chat_calls new) <= 2
             /\ List.length (search_calls new) <= 3
             /\ exists later, new = (later ++ [ChatCall (classify_request question)])%list).
  { apply bind_cases in H. destruct H as [[e [Ha _]] | [a [w1 [Ha Hk]]]].
    - rewrite (analyze_strategy_question_calls Ha).
      exists [ChatCall (classify_request question)].
      split; [reflexivity|]. simpl. split; [lia|]. split; [lia|]. now exists [].
    - pose proof (analyze_strategy_question_calls Ha) as K0.
      match type of Hk with
      | ?f _ = _ => assert (B : calls_within 1 3 f)
      end.
      { apply (calls_within_bind 0 0 1 3); [apply calls_within_lift|]. intro test.
        apply (calls_within_bind 0 0 1 3);
          [destruct (truthy test); [apply calls_within_lift | apply calls_within_ret]|].
        intro term.
        apply (calls_within_bind 0 0 1 3); [apply calls_within_lift|]. intro category.
        apply (calls_within_bind 0 1 1 2); [apply calls_within_search|]. intro primary.
        apply (calls_within_bind 0 0 1 2);
          [destruct (3 <=? _); [apply calls_within_lift | apply calls_within_ret]|].
        intro second.
        apply (calls_within_bind 0 1 1 1).
        { destruct second; [|apply calls_within_ret].
          apply (calls_within_bind 0 0 0 1); [apply calls_within_lift|]. intro t2.
          apply (calls_within_bind 0 1 0 0); [apply calls_within_search|]. intro l2.
          apply calls_within_ret. }
        intro all1.
        apply (calls_within_bind 0 0 1 1);
          [destruct (4 <=? _); [apply calls_within_lift | apply calls_within_ret]|].
        intro third.
        apply (calls_within_bind 0 1 1 0).
        { destruct third; [|apply calls_within_ret].
          apply (calls_within_bind 0 0 0 1); [apply calls_within_lift|]. intro t3.
          apply (calls_within_bind 0 0 0 1); [apply calls_within_lift|]. intro c3.
          apply (calls_within_bind 0 1 0 0); [apply calls_within_search|]. intro l3.
          apply calls_within_ret. }
        intro all2.
        apply (calls_within_bind 0 0 1 0); [apply calls_within_lift|]. intro category'.
        apply (calls_within_bind 1 0 0 0); [apply calls_within_generate|]. intro report.
        apply (calls_within_bind 0 0 0 0); [apply calls_within_lift|]. intro srcs.
        apply (calls_within_bind 0 0 0 0); [apply calls_within_lift|]. intro rt.
        apply (calls_within_bind 0 0 0 0); [apply calls_within_lift|]. intro key.
        apply (calls_within_bind 0 0 0 0); [apply calls_within_lift|]. intro used.
        apply calls_within_ret. }
      destruct (B _ _ _ Hk) as [n [K [C S]]].
      exists (n ++ [ChatCall (classify_request question)])%list.
      rewrite K, K0. unfold after. cbn [calls].
      split; [now rewrite <- app_assoc|].
      unfold chat_calls, search_calls. rewrite !flat_map_app, !length_app.
      fold (chat_calls n) (search_calls n). simpl.
      split; [lia|]. split; [lia|]. now exists n. }
  destruct G as [new [K [C [S L]]]].
  exists new. split; [exact K|]. split; [exact C|]. split; [exact S|].
  split; [rewrite calls_split; lia | exact L].
Qed.

Lemma research_call_budget_witness :
  exists new,
    calls (snd (research_and_analyze Example.three_terms_runtime Example.agent
                  pricing_question "Comprehensive Report" Example.start))
    = (new ++ [])%list
    /\ List.length new <= 5.
Proof.
  destruct (research_and_analyze Example.three_terms_runtime Example.agent pricing_question
              "Comprehensive Report" Example.start) as [out w'] eqn:Hr.
  destruct (research_call_budget Example.three_terms_runtime Example.agent pricing_question
              "Comprehensive Report" Example.start w' out Hr) as [new [K [_ [_ [L _]]]]].
  exists new. split; [exact K | exact L].
Defined.

Lemma focus_area_not_str_fails_late_witness :
  exists w',
    research_and_analyze Example.bad_focus_runtime Example.agent pricing_question
      "Quick Analysis" Example.start = (Raise TypeError, w')
    /\ chat_calls (calls w') = [classify_request pricing_question].
Proof.
  destruct (focus_area_not_str_fails_late Example.bad_focus_runtime Example.agent
              pricing_question "Quick Analysis" Example.start
              (after (ChatCall (classify_request pricing_question)) Example.start)
              (JObj [ ("category", JStr "pricing");
                      ("search_terms", JArr [JStr "fba fees"]);
                      ("focus_areas", JArr [JStr "margins"; JInt 7]) ])
              [JStr "fba fees"] [JStr "margins"; JInt 7] (JInt 7))
    as [w' [E [C _]]].
  - vm_compute. reflexivity.
  - reflexivity.
  - reflexivity.
  - simpl. tauto.
  - discriminate.
  - exists w'. split; [exact E | exact C].
Defined.

Lemma num_searches_default (depth : string) :
  depth <> "Quick Analysis" -> depth <> "Comprehensive Report" -> num_searches depth = 3.
Proof.
  intros N1 N2. unfold num_searches, search_counts. cbn [lookup].
  destruct (String.eqb_spec depth "Quick Analysis"); [contradiction|].
  destruct (String.eqb_spec depth "Deep Dive"); [reflexivity|].
  destruct (String.eqb_spec depth "Comprehensive Report"); [contradiction | reflexivity].
Qed.

(** X9. A depth label that is neither "Quick Analysis" nor "Comprehensive
    Report" is treated as "Deep Dive", whatever its text. *)
Theorem unknown_depth_is_deep_dive (R : runtime) (self : AmazonStrategyAgent)
    (question depth : string) (w : world) :
  depth <> "Quick Analysis" -> depth <> "Comprehensive Report" ->
  research_and_analyze R self question depth w
  = research_and_analyze R self question "Deep Dive" w.
Proof.
  intros N1 N2. unfold research_and_analyze.
  rewrite (num_searches_default depth N1 N2).
  change (num_searches "Deep Dive") with 3. reflexivity.
Qed.

Lemma unknown_depth_is_deep_dive_witness :
  research_and_analyze Example.pricing_runtime Example.agent pricing_question
    "quick analysis" Example.start
  = research_and_analyze Example.pricing_runtime Example.agent pricing_question
      "Deep Dive" Example.start.
Proof.
  apply unknown_depth_is_deep_dive; discriminate.
Defined.

Lemma valid_category_has_template (c : string) :
  In c valid_categories -> exists tpl, lookup c report_templates = Some tpl.
Proof.
  simpl. intros [<-|[<-|[<-|[<-|[<-|[<-|[]]]]]]]; eexists; reflexivity.
Qed.

Lemma lift_inv {A} {r : outcome A} {a : A} {w w' : world} :
  lift r w = (Ok a, w') -> r = Ok a /\ w' = w.
Proof. unfold lift. intro E. now inversion E. Qed.

(** A run that returns: the classification, the records gathered, the
    synthesizer's call and the fields of the result. *)
Lemma research_and_analyze_returns {R : runtime} {self : AmazonStrategyAgent}
    {question depth : string} {w w' : world} {r : ResearchResult} :
  research_and_analyze R self question depth w = (Ok r, w') ->
  exists a w1 c tpl all w4,
    analyze_strategy_question R question w = (Ok a, w1)
    /\ item a "category" = Ok (JStr c)
    /\ In c valid_categories
    /\ lookup c report_templates = Some tpl
    /\ Forall is_search_result all
    /\ generate_enhanced_report R question all a (JStr c) w4 = (Ok (report r), w')
    /\ links all = Ok (sources r)
    /\ r = {| question := question;
              analysis := a;
              search_results := all;
              report := report r;
              sources := sources r;
              report_type := JStr c;
              template_used := title tpl |}.
Proof.
  unfold research_and_analyze. intro H.
  apply bind_inv in H as [a [w1 [Ha H]]].
  destruct (analyze_category Ha) as [c [Hc V]].
  destruct (valid_category_has_template c V) as [tpl L].
  assert (Lc : forall x v v', lift (item a "category") v = (Ok x, v') ->
                              x = JStr c /\ v' = v).
  { intros x v v' E. apply lift_inv in E as [E ->]. rewrite Hc in E. now injection E as <-. }
  apply bind_inv in H as [test [u1 [_ H]]].
  apply bind_inv in H as [term [u2 [_ H]]].
  apply bind_inv in H as [cat [u3 [E H]]]. apply Lc in E as [-> _].
  apply bind_inv in H as [l1 [w2 [E1 H]]].
  apply bind_inv in H as [second [u4 [_ H]]].
  apply bind_inv in H as [all1 [w3 [H2 H]]].
  apply bind_inv in H as [third [u5 [_ H]]].
  apply bind_inv in H as [all2 [w4 [H3 H]]].
  apply bind_inv in H as [cat' [u6 [E H]]]. apply Lc in E as [-> ->].
  apply bind_inv in H as [rep [w5 [G H]]].
  apply bind_inv in H as [srcs [u7 [E H]]]. apply lift_inv in E as [Ls ->].
  apply bind_inv in H as [rt [u8 [E H]]]. apply Lc in E as [-> ->].
  apply bind_inv in H as [key [u9 [E H]]]. apply Lc in E as [-> ->].
  apply bind_inv in H as [used [w6 [E H]]]. apply lift_inv in E as [Lu ->].
  apply ret_inv in H as [<- <-].
  unfold dict_item in Lu. rewrite L in Lu. injection Lu as <-.
  pose proof (search_amazon_data_result_records E1) as F1.
  assert (A1 : Forall is_search_result all1).
  { destruct second.
    - apply bind_inv in H2 as [t2 [v [_ H2]]].
      apply bind_inv in H2 as [l2 [v' [E2 H2]]].
      apply ret_inv in H2 as [<- _].
      apply Forall_append; [apply Forall_firstn; exact F1|].
      apply Forall_firstn. exact (search_amazon_data_result_records E2).
    - apply ret_inv in H2 as [<- _]. apply Forall_firstn; exact F1. }
  assert (A2 : Forall is_search_result all2).
  { destruct third.
    - apply bind_inv in H3 as [t3 [v [_ H3]]].
      apply bind_inv in H3 as [c3 [v' [E H3]]]. apply Lc in E as [-> ->].
      apply bind_inv in H3 as [l3 [v'' [E3 H3]]].
      apply ret_inv in H3 as [<- _].
      apply Forall_append; [exact A1|].
      apply Forall_firstn. exact (search_amazon_data_result_records E3).
    - now apply ret_inv in H3 as [<- _]. }
  exists a, w1, c, tpl, all2, w4. cbn [report sources].
  repeat split; assumption.
Qed.

(** X10. The fields of a returned result fit together: it carries the
    question asked and the classification the classifier returned, its
    report type is that classification's category, one of the six tags,
    its template title is the title of that tag in the table, and its
    report is what the synthesizer returned for the aggregated results. *)
Theorem result_fields_fit (R : runtime) (self : AmazonStrategyAgent)
    (asked depth : string) (w w' : world) (r : ResearchResult) :
  research_and_analyze R self asked depth w = (Ok r, w') ->
  question r = asked
  /\ (exists w1, analyze_strategy_question R asked w = (Ok (analysis r), w1))
  /\ (exists c tpl,
        report_type r = JStr c
        /\ item (analysis r) "category" = Ok (JStr c)
        /\ In c valid_categories
        /\ lookup c report_templates = Some tpl
        /\ template_used r = title tpl)
  /\ exists w4,
       generate_enhanced_report R asked (search_results r) (analysis r) (report_type r) w4
       = (Ok (report r), w').
Proof.
  intro H.
  destruct (research_and_analyze_returns H)
    as [a [w1 [c [tpl [all [w4 [Ha [Hc [V [L [_ [G [_ E]]]]]]]]]]]]].
  rewrite E. cbn [question analysis search_results report report_type template_used].
  split; [reflexivity|]. split; [now exists w1|].
  split; [exists c, tpl; auto|].
  exists w4. rewrite E in G. exact G.
Qed.

Lemma result_fields_fit_witness :
  exists r w',
    research_and_analyze Example.pricing_runtime Example.agent pricing_question "Deep Dive"
      Example.start = (Ok r, w')
    /\ question r = pricing_question
    /\ exists c, report_type r = JStr c /\ In c valid_categories.
Proof.
  destruct (research_and_analyze Example.pricing_runtime Example.agent pricing_question
              "Deep Dive" Example.start) as [out w'] eqn:Hr.
  assert (O : exists r, out = Ok r).
  { apply (f_equal fst) in Hr. simpl in Hr. rewrite <- Hr.
    vm_compute. eexists. reflexivity. }
  destruct O as [r ->].
  exists r, w'. split; [reflexivity|].
  destruct (result_fields_fit Example.pricing_runtime Example.agent pricing_question
              "Deep Dive" Example.start w' r Hr) as [Q [_ [[c [tpl [T [_ [V _]]]]] _]]].
  split; [exact Q|]. exists c. split; [exact T | exact V].
Defined.

Lemma links_of_records (l : list json) :
  Forall is_search_result l -> links l = Ok (filter truthy (map link_of l)).
Proof.
  induction 1 as [|r l [t [s [k [src ->]]]] _ IH]; [reflexivity|].
  cbn [links item lookup String.eqb Ascii.eqb Bool.eqb rbind].
  cbn [map filter link_of field lookup String.eqb Ascii.eqb Bool.eqb].
  rewrite IH. destruct (truthy k); reflexivity.
Qed.

Lemma filter_all_true {A} (f : A -> bool) (l : list A) :
  Forall (fun x => f x = true) (filter f l).
Proof.
  apply Forall_forall. intros x I. apply filter_In in I. tauto.
Qed.

(** X11. The sources of a returned result are the links of its search
    results that are not empty, in the same order: there are no more
    sources than results, at most 7, and none is empty. *)
Theorem sources_are_the_links (R : runtime) (self : AmazonStrategyAgent)
    (question depth : string) (w w' : world) (r : ResearchResult) :
  research_and_analyze R self question depth w = (Ok r, w') ->
  Forall is_search_result (search_results r)
  /\ sources r = filter truthy (map link_of (search_results r))
  /\ List.length (sources r) <= List.length (search_results r)
  /\ List.length (sources r) <= 7
  /\ Forall (fun s => truthy s = true) (sources r).
Proof.
  intro H.
  destruct (research_and_analyze_returns H)
    as [a [w1 [c [tpl [all [w4 [_ [_ [_ [_ [F [_ [Ls E]]]]]]]]]]]]].
  assert (S : search_results r = all) by (rewrite E; reflexivity).
  rewrite (links_of_records all F) in Ls. injection Ls as Ls.
  rewrite S, <- Ls.
  assert (B : List.length (filter truthy (map link_of all)) <= List.length all).
  { rewrite <- (length_map link_of all). apply filter_length_le. }
  destruct (research_results_shape H) as [l1 [l2 [l3 [_ [_ [Sh _]]]]]].
  assert (B7 : List.length all <= 7).
  { rewrite <- S, Sh, !length_app.
    pose proof (firstn_le_length 3 l1). pose proof (firstn_le_length 2 l2).
    pose proof (firstn_le_length 2 l3). lia. }
  split; [exact F|]. split; [reflexivity|]. split; [exact B|].
  split; [lia | apply filter_all_true].
Qed.

Lemma sources_are_the_links_witness :
  exists r w',
    research_and_analyze Example.three_terms_runtime Example.agent pricing_question
      "Comprehensive Report" Example.start = (Ok r, w')
    /\ sources r = filter truthy (map link_of (search_results r))
    /\ List.length (sources r) <= 7.
Proof.
  destruct (research_and_analyze Example.three_terms_runtime Example.agent pricing_question
              "Comprehensive Report" Example.start) as [out w'] eqn:Hr.
  assert (O : exists r, out = Ok r).
  { apply (f_equal fst) in Hr. simpl in Hr. rewrite <- Hr.
    vm_compute. eexists. reflexivity. }
  destruct O as [r ->].
  exists r, w'. split; [reflexivity|].
  destruct (sources_are_the_links Example.three_terms_runtime Example.agent pricing_question
              "Comprehensive Report" Example.start w' r Hr) as [_ [S [_ [L _]]]].
  split; [exact S | exact L].
Defined.

Lemma rmap_as_str_strs (strs : list string) : rmap as_str (map JStr strs) = Ok strs.
Proof.
  induction strs as [|s strs IH]; [reflexivity|].
  simpl map. cbn [rmap as_str rbind]. now rewrite IH.
Qed.

Lemma section_of_four (tpl : template) (s0 s1 s2 s3 : string) :
  sections tpl = [s0; s1; s2; s3] ->
  section tpl 0 = Ok s0 /\ section tpl 1 = Ok s1
  /\ section tpl 2 = Ok s2 /\ section tpl 3 = Ok s3.
Proof. intro E. unfold section. rewrite E. repeat split. Qed.

(** With records to summarise, a template of the table, a classification
    that is a dict with focus areas that are strings and an LLM that
    answers, the synthesizer returns the text the LLM wrote. *)
Lemma generate_enhanced_report_ok (R : runtime) (question : string)
    (search_results : list json) (d : dict) (areas : list string) (c : string)
    (tpl : template) (w : world) :
  (forall t req, exists text, create R t req = Ok text) ->
  Forall is_search_result search_results ->
  lookup c report_templates = Some tpl ->
  get (JObj d) "focus_areas" (JArr []) = Ok (JArr (map JStr areas)) ->
  exists text w',
    generate_enhanced_report R question search_results (JObj d) (JStr c) w = (Ok text, w').
Proof.
  intros Hc F L G. unfold generate_enhanced_report.
  assert (T : (let! general := dict_item report_templates (JStr "general") in
               dict_get report_templates (JStr c) general) = Ok tpl).
  { unfold dict_item, dict_get. rewrite L.
    set (g := lookup "general" report_templates). vm_compute in g. subst g.
    reflexivity. }
  rewrite (bind_lift_ok _ _ T).
  rewrite (bind_lift_ok _ _ (search_summary_loop_blocks R _ (Forall_firstn _ 4 _ F) "" 1)).
  unfold bind at 1. unfold now at 1.
  destruct (template_sections _ _ L) as [s0 [s1 [s2 [s3 S]]]].
  destruct (section_of_four tpl s0 s1 s2 s3 S) as [E0 [E1 [E2 E3]]].
  assert (P : exists prompt,
             enhanced_report_prompt R tpl (strftime_now R (calls w)) question (JObj d)
               (EmptyString ++ fold_right String.append ""
                  (map (fun '(k, r) => summary_block R k r)
                       (enumerate 1 (firstn 4 search_results)))) = Ok prompt).
  { unfold enhanced_report_prompt. cbn [get rbind] in *.
    injection G as G. rewrite G. unfold join_value. cbn [iterate rbind].
    rewrite rmap_as_str_strs. cbn [rbind].
    rewrite E0, E1, E2, E3. cbn [rbind]. eauto. }
  destruct P as [prompt P]. rewrite (bind_lift_ok _ _ P).
  unfold bind, call_create, ret.
  destruct (Hc (calls w) {| model := "gpt-4"; content := prompt; temperature := 3 # 10;
                            max_tokens := Some 2000 |}) as [text ->].
  eauto.
Qed.

(** X12. When the LLM answers every call, and the classification has a list
    of search terms and focus areas that are strings (or none), the
    request returns a result, whatever the search service does. *)
Theorem request_returns_when_llm_answers (R : runtime) (self : AmazonStrategyAgent)
    (asked depth : string) (w w1 : world) (a : json) (terms : list json)
    (areas : list string) :
  (forall t req, exists text, create R t req = Ok text) ->
  analyze_strategy_question R asked w = (Ok a, w1) ->
  item a "search_terms" = Ok (JArr terms) ->
  get a "focus_areas" (JArr []) = Ok (JArr (map JStr areas)) ->
  exists r w',
    research_and_analyze R self asked depth w = (Ok r, w')
    /\ question r = asked
    /\ analysis r = a.
Proof.
  intros Hl Ha Ht Hf.
  destruct (analyze_category Ha) as [c [Hc V]].
  destruct (valid_category_has_template c V) as [tpl L].
  destruct (research_and_analyze_gathers (self := self) (depth := depth) Ha Ht Hc)
    as [all [w4 [F [_ [_ E]]]]].
  assert (D : exists d, a = JObj d) by (destruct a; try discriminate Ht; eauto).
  destruct D as [d ->].
  destruct (generate_enhanced_report_ok R asked all d areas c tpl w4 Hl F L Hf)
    as [text [w5 G]].
  rewrite E, (bind_ok _ G).
  rewrite (bind_lift_ok _ _ (links_of_records all F)).
  assert (U : dict_item report_templates (JStr c) = Ok tpl)
    by (unfold dict_item; now rewrite L).
  rewrite (bind_lift_ok _ _ U).
  eexists. eexists. split; [reflexivity|]. split; reflexivity.
Qed.

Lemma request_returns_when_llm_answers_witness :
  exists r w',
    research_and_analyze Example.prose_runtime Example.agent pricing_question
      "Comprehensive Report" Example.start = (Ok r, w')
    /\ analysis r = fallback pricing_question.
Proof.
  destruct (request_returns_when_llm_answers Example.prose_runtime Example.agent
              pricing_question "Comprehensive Report" Example.start
              (after (ChatCall (classify_request pricing_question)) Example.start)
              (fallback pricing_question) [JStr pricing_question]
              ["market analysis"; "opportunities"; "strategy"])
    as [r [w' [E [_ A]]]].
  - intros t req. unfold Example.prose_runtime, Example.runtime_of, Example.chat_of.
    cbn [create]. destruct (chat_calls t); eauto.
  - vm_compute. reflexivity.
  - reflexivity.
  - reflexivity.
  - exists r, w'. split; [exact E | exact A].
Defined.

(* ===================================================================== *)
(** ** More on the handler *)
(* ===================================================================== *)

Lemma contains_char_append (c : ascii) (a b : string) :
  contains (String c "") (a ++ b)
  = contains (String c "") a || contains (String c "") b.
Proof.
  induction a as [|x a IH]; [reflexivity|].
  cbn [append contains starts_with]. rewrite IH.
  destruct (Ascii.eqb c x); reflexivity.
Qed.

Lemma spaces_to_underscores_no_space (s : string) :
  contains " " (spaces_to_underscores s) = false.
Proof.
  induction s as [|c s IH]; [reflexivity|].
  cbn [spaces_to_underscores contains starts_with]. rewrite IH.
  destruct (Ascii.eqb_spec c " ") as [->|N]; [reflexivity|].
  destruct (Ascii.eqb_spec " " c) as [E|_]; [now elim N | reflexivity].
Qed.

Lemma spaces_to_underscores_keeps (x : ascii) (s : string) :
  x <> " "%char ->
  contains (String x "") s = true ->
  contains (String x "") (spaces_to_underscores s) = true.
Proof.
  intros N. induction s as [|c s IH]; [intro H; exact H|].
  cbn [spaces_to_underscores contains starts_with].
  destruct (Ascii.eqb_spec x c) as [<-|D].
  - destruct (Ascii.eqb_spec x " "); [contradiction|].
    now rewrite Ascii.eqb_refl.
  - simpl. intro H. rewrite (IH H). apply orb_true_r.
Qed.

Lemma str_len_append (a b : string) : str_len (a ++ b) = str_len a + str_len b.
Proof.
  induction a as [|c a IH]; [reflexivity|].
  cbn [append str_len]. rewrite IH. destruct (is_continuation c); reflexivity.
Qed.

Lemma spaces_to_underscores_len (s : string) :
  str_len (spaces_to_underscores s) = str_len s.
Proof.
  induction s as [|c s IH]; [reflexivity|].
  cbn [spaces_to_underscores str_len]. rewrite IH.
  destruct (Ascii.eqb_spec c " ") as [->|_]; reflexivity.
Qed.

(** X13. The name of the downloaded file never holds a space and has at
    most 56 characters; every other character of the first 30 of the
    question is kept as it is, a slash or a question mark included. *)
Theorem file_name_shape (question : string) :
  contains " " (report_file_name question) = false
  /\ str_len (report_file_name question) <= 56
  /\ forall x, x <> " "%char ->
       contains (String x "") (str_take 30 question) = true ->
       contains (String x "") (report_file_name question) = true.
Proof.
  unfold report_file_name. rewrite replace_space. split; [|split].
  - rewrite !contains_char_append, spaces_to_underscores_no_space. reflexivity.
  - rewrite !str_len_append, spaces_to_underscores_len, str_take_len.
    change (str_len "amazon_strategy_report_") with 23. change (str_len ".md") with 3. lia.
  - intros x N H. rewrite !contains_char_append.
    rewrite (spaces_to_underscores_keeps x _ N H). rewrite orb_true_l. apply orb_true_r.
Qed.

Lemma file_name_shape_witness :
  contains "/" (report_file_name "Is FBA/FBM better for toys?") = true.
Proof.
  destruct (file_name_shape "Is FBA/FBM better for toys?") as [_ [_ K]].
  apply K; [discriminate | reflexivity].
Defined.





(* ===================================================================== *)
(** ** Start-up and the example questions *)
(* ===================================================================== *)

Lemma or_else_env (k : string) (b : outcome json) :
  k <> "" -> or_else (env_value (Some k)) b = Ok (JStr k).
Proof.
  intro N. unfold or_else, env_value, truthy.
  destruct (String.eqb_spec k ""); [contradiction | reflexivity].
Qed.

Lemma or_else_unset (v : option string) (b : outcome json) :
  v = None \/ v = Some "" -> or_else (env_value v) b = b.
Proof. intros [-> | ->]; reflexivity. Qed.

(** X15. Keys of the environment win over the secrets: when both variables
    are set and not empty, start-up never reads the secrets, so it builds
    the agent with the two values of the environment even where reading
    the secrets would raise. *)
Theorem environment_keys_win (R : runtime) (H : host) (k1 k2 : string) :
  getenv H "OPENAI_API_KEY" = Some k1 -> k1 <> "" ->
  getenv H "SERPAPI_API_KEY" = Some k2 -> k2 <> "" ->
  new_client H (JStr k1) = Ok tt ->
  initialize R H
  = {| started_agent := Some {| key_openai := JStr k1; key_serpapi := JStr k2 |};
       started_ready := true;
       started_widgets := [] |}.
Proof.
  intros E1 N1 E2 N2 C. unfold initialize, new_agent.
  rewrite E1, E2, (or_else_env k1 _ N1), (or_else_env k2 _ N2). cbn [rbind].
  now rewrite C.
Qed.

Lemma environment_keys_win_witness :
  initialize Example.writer_runtime Example.local_host
  = {| started_agent := Some {| key_openai := JStr "sk-test";
                                key_serpapi := JStr "serp-test" |};
       started_ready := true;
       started_widgets := [] |}.
Proof.
  apply environment_keys_win; try reflexivity; discriminate.
Defined.

(** X16. When the OpenAI key is not in the environment, or is empty there,
    and reading the secrets raises, start-up shows the configuration error
    and leaves the agent not ready; every later click with a question then
    draws the "System not ready" error alone and makes no remote call. *)
Theorem unreadable_secrets_block_requests (R : runtime) (H : host)
    (agent : AmazonStrategyAgent) (e : exn) (question depth : string) (w : world) :
  getenv H "OPENAI_API_KEY" = None \/ getenv H "OPENAI_API_KEY" = Some "" ->
  secrets_get H "OPENAI_API_KEY" = Raise e ->
  question <> "" ->
  initialize R H
  = {| started_agent := None;
       started_ready := false;
       started_widgets := [StError ("⚠️ Configuration Error: " ++ exc_str R e)] |}
  /\ generate_strategy_report R agent (started_ready (initialize R H)) question depth w
     = ([StError "🔧 System not ready. Please check your configuration."], w).
Proof.
  intros U S N.
  assert (I : initialize R H
              = {| started_agent := None;
                   started_ready := false;
                   started_widgets :=
                     [StError ("⚠️ Configuration Error: " ++ exc_str R e)] |}).
  { unfold initialize. rewrite (or_else_unset _ _ U), S. reflexivity. }
  split; [exact I|]. rewrite I. cbn [started_ready].
  unfold generate_strategy_report.
  destruct (String.eqb_spec question ""); [contradiction | reflexivity].
Qed.

Lemma unreadable_secrets_block_requests_witness :
  initialize Example.writer_runtime Example.bare_host
  = {| started_agent := None;
       started_ready := false;
       started_widgets := [StError "⚠️ Configuration Error: No secrets found."] |}
  /\ generate_strategy_report Example.writer_runtime Example.agent
       (started_ready (initialize Example.writer_runtime Example.bare_host))
       pricing_question "Deep Dive" Example.start
     = ([StError "🔧 System not ready. Please check your configuration."], Example.start).
Proof.
  apply (unreadable_secrets_block_requests Example.writer_runtime Example.bare_host
           Example.agent (ApiError "No secrets found.") pricing_question "Deep Dive"
           Example.start).
  - left. reflexivity.
  - reflexivity.
  - discriminate.
Defined.

(** X17. Start-up does not check the SerpAPI key: when that key is in
    neither the environment nor the secrets, and the OpenAI client can be
    built, the agent is ready all the same, with no SerpAPI key and no
    error shown. *)
Theorem missing_search_key_goes_unnoticed (R : runtime) (H : host) (k1 : string) :
  getenv H "OPENAI_API_KEY" = Some k1 -> k1 <> "" ->
  getenv H "SERPAPI_API_KEY" = None \/ getenv H "SERPAPI_API_KEY" = Some "" ->
  secrets_get H "SERPAPI_API_KEY" = Ok JNull ->
  new_client H (JStr k1) = Ok tt ->
  initialize R H
  = {| started_agent := Some {| key_openai := JStr k1; key_serpapi := JNull |};
       started_ready := true;
       started_widgets := [] |}.
Proof.
  intros E1 N1 U S C. unfold initialize, new_agent.
  rewrite E1, (or_else_env k1 _ N1), (or_else_unset _ _ U), S. cbn [rbind].
  now rewrite C.
Qed.

Lemma missing_search_key_goes_unnoticed_witness :
  initialize Example.writer_runtime Example.half_host
  = {| started_agent := Some {| key_openai := JStr "sk-test"; key_serpapi := JNull |};
       started_ready := true;
       started_widgets := [] |}.
Proof.
  apply missing_search_key_goes_unnoticed; try reflexivity.
  - discriminate.
  - left. reflexivity.
Defined.

(** X18. A click on the button of example [i] makes that example the
    default question, whatever example was pending, and uses it once: the
    session keeps no example afterwards, so the default question of the
    next run without a click is empty. *)
Theorem example_click_is_used_once (i : nat) (session : option string) :
  i < 5 ->
  default_question (example_buttons (fun key => String.eqb key (example_key i)) session)
  = (nth i example_questions "", None)
  /\ default_question
       (example_buttons (fun _ => false)
          (snd (default_question
                  (example_buttons (fun key => String.eqb key (example_key i)) session))))
     = ("", None).
Proof.
  intro L.
  do 5 (destruct i as [|i]; [split; vm_compute; reflexivity|]).
  lia.
Qed.

Lemma example_click_is_used_once_witness :
  default_question
    (example_buttons (fun key => String.eqb key (example_key 2))
       (Some "What are customers saying about protein powders on Amazon?"))
  = ("What's the pricing opportunity for eco-friendly products on Amazon?", None).
Proof.
  destruct (example_click_is_used_once 2
              (Some "What are customers saying about protein powders on Amazon?")) as [E _].
  - lia.
  - exact E.
Defined.

(* ===================================================================== *)
(** ** Failures of the synthesizer call *)
(* ===================================================================== *)

(** Under the conditions of [generate_enhanced_report_ok] but for the LLM,
    the synthesizer sends one capped request and its outcome is the
    LLM's. *)
Lemma generate_enhanced_report_sends (R : runtime) (question : string)
    (search_results : list json) (d : dict) (areas : list string) (c : string)
    (tpl : template) (w : world) :
  Forall is_search_result search_results ->
  lookup c report_templates = Some tpl ->
  get (JObj d) "focus_areas" (JArr []) = Ok (JArr (map JStr areas)) ->
  exists req,
    max_tokens req = Some 2000
    /\ generate_enhanced_report R question search_results (JObj d) (JStr c) w
       = (create R (calls w) req, after (ChatCall req) w).
Proof.
  intros F L G. unfold generate_enhanced_report.
  assert (T : (let! general := dict_item report_templates (JStr "general") in
               dict_get report_templates (JStr c) general) = Ok tpl).
  { unfold dict_item, dict_get. rewrite L.
    set (g := lookup "general" report_templates). vm_compute in g. subst g.
    reflexivity. }
  rewrite (bind_lift_ok _ _ T).
  rewrite (bind_lift_ok _ _ (search_summary_loop_blocks R _ (Forall_firstn _ 4 _ F) "" 1)).
  unfold bind at 1. unfold now at 1.
  destruct (template_sections _ _ L) as [s0 [s1 [s2 [s3 S]]]].
  destruct (section_of_four tpl s0 s1 s2 s3 S) as [E0 [E1 [E2 E3]]].
  assert (P : exists prompt,
             enhanced_report_prompt R tpl (strftime_now R (calls w)) question (JObj d)
               (EmptyString ++ fold_right String.append ""
                  (map (fun '(k, r) => summary_block R k r)
                       (enumerate 1 (firstn 4 search_results)))) = Ok prompt).
  { unfold enhanced_report_prompt. cbn [get rbind] in *.
    injection G as G. rewrite G. unfold join_value. cbn [iterate rbind].
    rewrite rmap_as_str_strs. cbn [rbind].
    rewrite E0, E1, E2, E3. cbn [rbind]. eauto. }
  destruct P as [prompt P]. rewrite (bind_lift_ok _ _ P).
  exists {| model := "gpt-4"; content := prompt; temperature := 3 # 10;
            max_tokens := Some 2000 |}.
  split; [reflexivity|].
  unfold bind, call_create, ret, after.
  destruct (create R (calls w) _); reflexivity.
Qed.

(** X19. When the LLM call of the synthesizer raises, after a
    classification with a list of search terms and focus areas that are
    strings, the driver raises the same exception once its searches are
    made: two LLM calls in all and no result, and the handler shows the
    error after the progress widgets. *)
Theorem synthesizer_error_propagates (R : runtime) (self : AmazonStrategyAgent)
    (asked depth : string) (w w1 : world) (a : json) (terms : list json)
    (areas : list string) (e : exn) :
  (forall t req, max_tokens req = Some 2000 -> create R t req = Raise e) ->
  analyze_strategy_question R asked w = (Ok a, w1) ->
  item a "search_terms" = Ok (JArr terms) ->
  get a "focus_areas" (JArr []) = Ok (JArr (map JStr areas)) ->
  exists w' req,
    research_and_analyze R self asked depth w = (Raise e, w')
    /\ chat_calls (calls w') = req :: classify_request asked :: chat_calls (calls w)
    /\ (exists p rest, search_calls (calls w') = (rest ++ p :: search_calls (calls w))%list)
    /\ (asked <> "" ->
        generate_strategy_report R self true asked depth w
        = ((progress_widgets ++ error_widgets R e)%list, w')).
Proof.
  intros Hl Ha Ht Hf.
  destruct (analyze_category Ha) as [c [Hc V]].
  destruct (valid_category_has_template c V) as [tpl L].
  destruct (research_and_analyze_gathers (self := self) (depth := depth) Ha Ht Hc)
    as [all [w4 [F [C [S E]]]]].
  assert (D : exists d, a = JObj d) by (destruct a; try discriminate Ht; eauto).
  destruct D as [d ->].
  destruct (generate_enhanced_report_sends R asked all d areas c tpl w4 F L Hf)
    as [req [Cap G]].
  rewrite (Hl _ _ Cap) in G.
  assert (Dr : research_and_analyze R self asked depth w
               = (Raise e, after (ChatCall req) w4)).
  { rewrite E. now rewrite (bind_raise _ G). }
  exists (after (ChatCall req) w4), req.
  split; [exact Dr|]. split; [|split].
  - unfold after. cbn [calls chat_calls flat_map app]. fold (chat_calls (calls w4)).
    now rewrite C.
  - unfold after. cbn [calls search_calls flat_map app]. fold (search_calls (calls w4)).
    exact S.
  - intro N. unfold generate_strategy_report.
    destruct (String.eqb_spec asked ""); [contradiction|].
    simpl negb. cbv iota. now rewrite Dr.
Qed.

Lemma synthesizer_error_propagates_witness :
  exists w',
    research_and_analyze Example.no_report_runtime Example.agent pricing_question
      "Quick Analysis" Example.start = (Raise (ApiError "Rate limit reached."), w')
    /\ List.length (chat_calls (calls w')) = 2.
Proof.
  destruct (synthesizer_error_propagates Example.no_report_runtime Example.agent
              pricing_question "Quick Analysis" Example.start
              (after (ChatCall (classify_request pricing_question)) Example.start)
              (JObj [ ("category", JStr "pricing");
                      ("search_terms", JArr [JStr "eco-friendly pricing"]);
                      ("focus_areas", JArr [JStr "pricing"; JStr "margins"]);
                      ("analysis_type", JStr "pricing analysis");
                      ("key_questions", JArr [JStr "What do rivals charge?"]) ])
              [JStr "eco-friendly pricing"] ["pricing"; "margins"]
              (ApiError "Rate limit reached."))
    as [w' [req [E [C _]]]].
  - intros t req Cap. unfold Example.no_report_runtime, Example.runtime_of.
    cbn [create]. now rewrite Cap.
  - vm_compute. reflexivity.
  - reflexivity.
  - reflexivity.
  - exists w'. split; [exact E|]. rewrite C. reflexivity.
Defined.
